(** * Tessa API: the account orchestration layer

    A shallow embedding of the cross-system account workflows of the
    Tessa API (Express + Mongoose + Firebase Admin):

    - [UserSchema] and class [UserService] ([src/modules/users/user.model.ts]),
      [IUser] and [UserRole] ([user.interface.ts]);
    - [OwnerSchema] and class [OwnerService] ([owner.model.ts],
      [owner.service.ts]), [IOwner] and [Role] ([owner.interface.ts]);
    - class [Firebase] ([src/modules/common/plugins/firebase.ts]);
    - class [UserOrchestrator] ([orchestrators/users/user.orchestrator.ts],
      whose text follows the validation class in
      [src/modules/users/user.validation.ts]);
    - [OwnerController] ([src/routes/apiv1/owner/owner.controller.ts]),
      [UserController] and the routes that mount them;
    - [FirebaseMock] ([test/common/mocks/pluggins.ts]).

    Asynchronous methods are modelled as computations in a state and
    exception monad over a [World] that holds the two Mongo collections,
    the state of the Firebase Auth backend, the clock and a log of the
    calls made to the Firebase plugin.  [await] is sequencing; [throw] and
    rejected promises are the [Throw] outcome; [try]/[catch] is
    [try_catch]. *)

From stdpp Require Import base option list strings gmap fin_maps.
From Stdlib Require Import ZArith Ascii.

Local Open Scope Z_scope.
Local Open Scope string_scope.

(** ** Thrown values *)

(** [http-status] constants used by the sources. *)
Module httpStatus.
Definition OK : Z := 200.
Definition CREATED : Z := 201.
Definition NO_CONTENT : Z := 204.
Definition BAD_REQUEST : Z := 400.
Definition NOT_FOUND : Z := 404.
Definition CONFLICT : Z := 409.
Definition INTERNAL_SERVER_ERROR : Z := 500.
End httpStatus.

(** What a rejected promise can carry: an [ApiError] built by this
    repository ([new ApiError(statusCode, message)]), an error of the
    Mongo driver or of Mongoose, or an error of the Firebase Admin SDK. *)
Inductive Exn : Type :=
  | ApiError (statusCode : Z) (message : string)
  | MongoError (message : string)
  | FirebaseAuthError (code : string).

#[global] Instance Exn_eq_dec : EqDecision Exn.
Proof. solve_decision. Defined.

Inductive Result (A : Type) : Type :=
  | Ok (a : A)
  | Throw (e : Exn).
Arguments Ok {A} a.
Arguments Throw {A} e.

(** ** The monad of asynchronous methods *)

Section Prog.
Context {S : Type}.

(** State changes made before a throw persist: nothing is transactional. *)
Definition Prog (A : Type) : Type := S -> Result A * S.

Definition ret {A} (a : A) : Prog A := fun s => (Ok a, s).

Definition throw {A} (e : Exn) : Prog A := fun s => (Throw e, s).

Definition bind {A B} (m : Prog A) (k : A -> Prog B) : Prog B :=
  fun s =>
    match m s with
    | (Ok a, s') => k a s'
    | (Throw e, s') => (Throw e, s')
    end.

(** [try { body } catch (error) { handler }] *)
Definition try_catch {A} (body : Prog A) (handler : Exn -> Prog A) : Prog A :=
  fun s =>
    match body s with
    | (Ok a, s') => (Ok a, s')
    | (Throw e, s') => handler e s'
    end.

Definition get : Prog S := fun s => (Ok s, s).
Definition put (s : S) : Prog unit := fun _ => (Ok tt, s).
Definition modify (f : S -> S) : Prog unit := fun s => (Ok tt, f s).
End Prog.
Arguments Prog S A : clear implicits.

Declare Scope prog_scope.
Delimit Scope prog_scope with prog.
Notation "'let!' x ':=' m 'in' k" := (bind m (fun x => k))
  (at level 10, x name, m at level 100, k at level 200,
   format "'[v' 'let!'  x  ':='  m  'in' '/' k ']'") : prog_scope.
Notation "'do!' m 'in' k" := (bind m (fun _ => k))
  (at level 10, m at level 100, k at level 200,
   format "'[v' 'do!'  m  'in' '/' k ']'") : prog_scope.
Local Open Scope prog_scope.

(** A method body with a [let] variable that its [catch] block reads:
    the body runs over the pair of the variable and the outer state. *)
Section Locals.
Context {L S : Type}.

Definition with_local {A} (init : L) (body : Prog (L * S) A) : Prog S A :=
  fun s => let '(r, (_, s')) := body (init, s) in (r, s').

Definition lift_local {A} (m : Prog S A) : Prog (L * S) A :=
  fun ls => let '(r, s') := m (snd ls) in (r, (fst ls, s')).

Definition read_local : Prog (L * S) L := fun ls => (Ok (fst ls), ls).

Definition assign_local (v : L) : Prog (L * S) unit :=
  fun ls => (Ok tt, (v, snd ls)).
End Locals.

(** ** Data model *)

(** A [Types.ObjectId], identified with its 24-digit lowercase hexadecimal
    rendering, which is what [toString()] returns. *)
Definition ObjectId : Type := string.
Definition ObjectId_toString (id : ObjectId) : string := id.

(** Whether an optional property is set. *)
Definition present {A} (o : option A) : bool :=
  match o with Some _ => true | None => false end.

(** A [Date], in milliseconds since the epoch. *)
Definition Date : Type := Z.

(** [user.interface.ts] *)
Inductive UserRole : Type := MANAGER | EMPLOYEE.

#[global] Instance UserRole_eq_dec : EqDecision UserRole.
Proof. solve_decision. Defined.

Module IUser.
Record t : Type := mk {
  _id : option ObjectId;
  ownerId : ObjectId;
  name : string;
  password : option string;
  email : string;
  role : UserRole;
  createdAt : option Date
}.

(** The own property names of the object, as [JSON.stringify] or
    [toHaveProperty] see them. *)
Definition keys (u : t) : list string :=
  (if present (_id u) then ["_id"] else []) ++ ["ownerId"; "name"] ++
  (if present (password u) then ["password"] else []) ++ ["email"; "role"] ++
  (if present (createdAt u) then ["createdAt"; "updatedAt"] else []).
End IUser.

(** [owner.interface.ts] *)
Inductive Role : Type := OWNER.

#[global] Instance Role_eq_dec : EqDecision Role.
Proof. solve_decision. Defined.

Module IOwner.
Record t : Type := mk {
  _id : option ObjectId;
  name : string;
  email : string;
  role : option Role;
  createdAt : option Date
}.

Definition keys (o : t) : list string :=
  (if present (_id o) then ["_id"] else []) ++ ["name"; "email"] ++
  (if present (role o) then ["role"] else []) ++
  (if present (createdAt o) then ["createdAt"; "updatedAt"] else []).
End IOwner.

(** A stored document of the [users] collection: the paths of
    [UserSchema] plus the two paths added by [timestamps: true].  The
    [_id] path is the key under which the collection holds the document,
    so a document in hand is a pair of its [_id] and these paths. *)
Module UserDoc.
Record t : Type := mk {
  name : string;
  ownerId : ObjectId;
  email : string;
  role : UserRole;
  createdAt : Date;
  updatedAt : Date
}.

(** The paths Mongoose stores for a new document made from [user] at
    time [t]: only schema paths (there is no [password] path), and the
    stamps of [timestamps: true]. *)
Definition build (user : IUser.t) (t : Date) : UserDoc.t :=
  {| name := IUser.name user;
     ownerId := IUser.ownerId user;
     email := IUser.email user;
     role := IUser.role user;
     createdAt := default t (IUser.createdAt user);
     updatedAt := t |}.

(** [.toObject()] / [.lean()]: a plain object with the stored paths. *)
Definition toObject (doc : ObjectId * t) : IUser.t :=
  let '(id, d) := doc in
  {| IUser._id := Some id;
     IUser.ownerId := ownerId d;
     IUser.name := name d;
     IUser.password := None;
     IUser.email := email d;
     IUser.role := role d;
     IUser.createdAt := Some (createdAt d) |}.
End UserDoc.

(** A stored document of the [owners] collection ([OwnerSchema]). *)
Module OwnerDoc.
Record t : Type := mk {
  name : string;
  email : string;
  role : Role;
  createdAt : Date;
  updatedAt : Date
}.

(** The paths stored for a new document made from [owner] at time
    [t]; [role] defaults to [Role.OWNER]. *)
Definition build (owner : IOwner.t) (t : Date) : OwnerDoc.t :=
  {| name := IOwner.name owner;
     email := IOwner.email owner;
     role := default OWNER (IOwner.role owner);
     createdAt := default t (IOwner.createdAt owner);
     updatedAt := t |}.

Definition toObject (doc : ObjectId * t) : IOwner.t :=
  let '(id, d) := doc in
  {| IOwner._id := Some id;
     IOwner.name := name d;
     IOwner.email := email d;
     IOwner.role := Some (role d);
     IOwner.createdAt := Some (createdAt d) |}.
End OwnerDoc.

#[global] Instance UserDoc_eq_dec : EqDecision UserDoc.t.
Proof. solve_decision. Defined.
#[global] Instance OwnerDoc_eq_dec : EqDecision OwnerDoc.t.
Proof. solve_decision. Defined.

(** ** The Firebase Auth backend *)

(** The [userData] object handed to [auth.createUser]. *)
Record CreateRequest : Type := mkCreateRequest {
  uid : string;
  cr_email : string;
  cr_password : option string;
  displayName : string
}.

(** Calls received by the Firebase plugin, in the order they were made. *)
Inductive FirebaseCall : Type :=
  | CreateUserCall (userData : CreateRequest)
  | SetCustomClaimsCall (uid : string) (role : string)
  | DeleteUserCall (uid : string).

Definition is_createUser (c : FirebaseCall) : bool :=
  match c with CreateUserCall _ => true | _ => false end.
Definition is_setCustomClaims (c : FirebaseCall) : bool :=
  match c with SetCustomClaimsCall _ _ => true | _ => false end.
Definition is_deleteUser (c : FirebaseCall) : bool :=
  match c with DeleteUserCall _ => true | _ => false end.

(** How many calls of a kind a log holds. *)
Definition count_calls (p : FirebaseCall -> bool) (log : list FirebaseCall) : nat :=
  length (filter (fun c => p c = true) log).

(** [firebaseAdmin.auth()]: an external service.  Its behaviour is not
    part of the repository, so it is an interface; each operation may
    change the service's state and may reject for reasons of its own. *)
Class AuthBackend (A : Type) : Type := {
  auth_createUser : CreateRequest -> Prog A unit;
  auth_setCustomUserClaims : string -> string -> Prog A unit;
  auth_deleteUser : string -> Prog A unit
}.

(** ** The world *)

Record World (A : Type) : Type := mkWorld {
  users : gmap string UserDoc.t;      (* collection 'users' *)
  owners : gmap string OwnerDoc.t;    (* collection 'owners' *)
  auth : A;                           (* the Firebase Auth service *)
  now : Date;                         (* the clock read by Mongoose *)
  mongo_faults : list (option string);
    (* the fate of the coming round trips to MongoDB, one entry each:
       [Some msg] makes the driver reject with [msg]; once the list is
       used up every round trip goes through *)
  calls : list FirebaseCall           (* calls made to the Firebase plugin *)
}.
Arguments mkWorld {A}.
Arguments users {A}.
Arguments owners {A}.
Arguments auth {A}.
Arguments now {A}.
Arguments mongo_faults {A}.
Arguments calls {A}.

Section Orchestration.
Context {A : Type} {backend : AuthBackend A}.

Abbreviation W := (World A).

Definition set_users (m : gmap string UserDoc.t) (w : W) : W :=
  mkWorld m (owners w) (auth w) (now w) (mongo_faults w) (calls w).
Definition set_owners (m : gmap string OwnerDoc.t) (w : W) : W :=
  mkWorld (users w) m (auth w) (now w) (mongo_faults w) (calls w).
Definition set_auth (a : A) (w : W) : W :=
  mkWorld (users w) (owners w) a (now w) (mongo_faults w) (calls w).
Definition set_mongo_faults (l : list (option string)) (w : W) : W :=
  mkWorld (users w) (owners w) (auth w) (now w) l (calls w).
Definition set_calls (l : list FirebaseCall) (w : W) : W :=
  mkWorld (users w) (owners w) (auth w) (now w) (mongo_faults w) l.

(** *** Mongoose models *)

(** One round trip to the database. *)
Definition mongo_io : Prog W unit :=
  fun w =>
    match mongo_faults w with
    | [] => (Ok tt, w)
    | None :: rest => (Ok tt, set_mongo_faults rest w)
    | Some msg :: rest => (Throw (MongoError msg), set_mongo_faults rest w)
    end.

(** [app.model<Doc>(...)]: a collection of the world and the paths the
    services query. *)
Record Model (Doc : Type) : Type := mkModel {
  collection : W -> gmap string Doc;
  set_collection : gmap string Doc -> W -> W;
  doc_email : Doc -> string
}.
Arguments collection {Doc}.
Arguments set_collection {Doc}.
Arguments doc_email {Doc}.

Section ModelOps.
Context {Doc : Type} (M : Model Doc).

Definition has_email (e : string) (kv : string * Doc) : Prop :=
  doc_email M (snd kv) = e.

#[global] Instance has_email_dec e kv : Decision (has_email e kv).
Proof. unfold has_email. apply _. Defined.

(** [M.findOne({ email })] *)
Definition Model_findOne_email (e : string)
  : Prog W (option (ObjectId * Doc)) :=
  do! mongo_io in
  let! w := get in
  ret (snd <$> list_find (has_email e) (map_to_list (collection M w))).

(** [M.findById(id)] *)
Definition Model_findById (id : ObjectId)
  : Prog W (option (ObjectId * Doc)) :=
  do! mongo_io in
  let! w := get in
  ret (pair id <$> collection M w !! id).

(** [M.findByIdAndDelete(id)]: the removed document, or [null]. *)
Definition Model_findByIdAndDelete (id : ObjectId)
  : Prog W (option (ObjectId * Doc)) :=
  do! mongo_io in
  let! w := get in
  match collection M w !! id with
  | None => ret None
  | Some d =>
      do! put (set_collection M (delete id (collection M w)) w) in
      ret (Some (id, d))
  end.

(** The insert behind [M.create]: both models have a unique index on
    [_id] (as every collection) and one on [email]. *)
Definition Model_insert (id : ObjectId) (d : Doc)
  : Prog W (ObjectId * Doc) :=
  do! mongo_io in
  let! w := get in
  if bool_decide (is_Some (collection M w !! id)) ||
     bool_decide (is_Some (list_find (has_email (doc_email M d))
                                     (map_to_list (collection M w))))
  then throw (MongoError "E11000 duplicate key error")
  else
    do! put (set_collection M (<[id := d]> (collection M w)) w) in
    ret (id, d).
End ModelOps.

(** [const User = app.model<IUserDocument>('User', UserSchema, 'users')] *)
Definition User : Model UserDoc.t :=
  mkModel _ users set_users UserDoc.email.

(** [const Owner = app.model<IOwnerDocument>('Owner', OwnerSchema, 'owners')] *)
Definition Owner : Model OwnerDoc.t :=
  mkModel _ owners set_owners OwnerDoc.email.

(** Schema validation of [required: true] paths; for a [String] path
    the empty string does not count as a value. *)
Definition required_string (path : string) (v : string) : Prog W unit :=
  if bool_decide (v = "") then
    throw (MongoError ("ValidationError: Path `" ++ path ++ "` is required."))
  else ret tt.

Definition required_id (v : option ObjectId) : Prog W ObjectId :=
  match v with
  | None => throw (MongoError "ValidationError: Path `_id` is required.")
  | Some id => ret id
  end.

(** [User.create(user)] *)
Definition User_create (user : IUser.t) : Prog W (ObjectId * UserDoc.t) :=
  let! id := required_id (IUser._id user) in
  do! required_string "name" (IUser.name user) in
  do! required_string "email" (IUser.email user) in
  let! w := get in
  Model_insert User id (UserDoc.build user (now w)).

(** [Owner.create(owner)] *)
Definition Owner_create (owner : IOwner.t) : Prog W (ObjectId * OwnerDoc.t) :=
  let! id := required_id (IOwner._id owner) in
  do! required_string "name" (IOwner.name owner) in
  do! required_string "email" (IOwner.email owner) in
  let! w := get in
  Model_insert Owner id (OwnerDoc.build owner (now w)).

(** [User.findByIdAndUpdate(id, { role }, { new: true, runValidators: true })] *)
Definition User_findByIdAndUpdate_role (id : ObjectId) (r : UserRole)
  : Prog W (option (ObjectId * UserDoc.t)) :=
  do! mongo_io in
  let! w := get in
  match users w !! id with
  | None => ret None
  | Some d =>
      let d' := {| UserDoc.name := UserDoc.name d;
                   UserDoc.ownerId := UserDoc.ownerId d;
                   UserDoc.email := UserDoc.email d;
                   UserDoc.role := r;
                   UserDoc.createdAt := UserDoc.createdAt d;
                   UserDoc.updatedAt := now w |} in
      do! put (set_users (<[id := d']> (users w)) w) in
      ret (Some (id, d'))
  end.

(** [User.find({ ownerId })] *)
Definition User_find_ownerId (ownerId : ObjectId)
  : Prog W (list (ObjectId * UserDoc.t)) :=
  do! mongo_io in
  let! w := get in
  ret (filter (fun doc => UserDoc.ownerId (snd doc) = ownerId)
              (map_to_list (users w))).

(** *** The Firebase plugin ([modules/common/plugins/firebase.ts]) *)

Definition log_call (c : FirebaseCall) : Prog W unit :=
  modify (fun w => set_calls (calls w ++ [c]) w).

(** A call of [this.auth]: it acts on the service's state only. *)
Definition lift_auth {X} (m : Prog A X) : Prog W X :=
  fun w => let '(r, a') := m (auth w) in (r, set_auth a' w).

(** The [UserRecord] that [createUser] resolves to is dropped by every
    caller, so the model resolves to [tt]. *)
Definition Firebase_createUser (userData : CreateRequest) : Prog W unit :=
  do! log_call (CreateUserCall userData) in
  let! userRecord := lift_auth (auth_createUser userData) in
  ret userRecord.

Definition Firebase_setCustomClaims (uid role : string) : Prog W unit :=
  do! log_call (SetCustomClaimsCall uid role) in
  try_catch
    (lift_auth (auth_setCustomUserClaims uid role))
    (fun _error =>
       throw (ApiError httpStatus.INTERNAL_SERVER_ERROR
                       "Error setting custom claims")).

Definition Firebase_deleteUser (uid : string) : Prog W unit :=
  do! log_call (DeleteUserCall uid) in
  lift_auth (auth_deleteUser uid).

(** *** [UserService] ([modules/users/user.service.ts]) *)

Definition UserService_createUser (user : IUser.t) : Prog W IUser.t :=
  let! existingUser := Model_findOne_email User (IUser.email user) in
  if present existingUser then
    throw (ApiError httpStatus.CONFLICT "User with this email already exists")
  else
    let! userCreated := User_create user in
    ret (UserDoc.toObject userCreated).

Definition UserService_getAllUsers (ownerId : ObjectId) : Prog W (list IUser.t) :=
  let! users := User_find_ownerId ownerId in
  ret (UserDoc.toObject <$> users).

Definition UserService_getUserById (id : ObjectId) : Prog W IUser.t :=
  let! user := Model_findById User id in
  match user with
  | None => throw (ApiError httpStatus.NOT_FOUND "User not found")
  | Some d => ret (UserDoc.toObject d)
  end.

Definition UserService_updateUserRole (id : ObjectId) (role : UserRole)
  : Prog W IUser.t :=
  let! user := User_findByIdAndUpdate_role id role in
  match user with
  | None => throw (ApiError httpStatus.NOT_FOUND "User not found")
  | Some d => ret (UserDoc.toObject d)
  end.

Definition UserService_deleteUser (id : ObjectId) : Prog W unit :=
  let! user := Model_findByIdAndDelete User id in
  match user with
  | None => throw (ApiError httpStatus.NOT_FOUND "User not found")
  | Some _ => ret tt
  end.

(** *** [OwnerService] ([modules/owners/owner.service.ts]) *)

Definition OwnerService_createOwner (owner : IOwner.t) : Prog W IOwner.t :=
  let! existingOwner := Model_findOne_email Owner (IOwner.email owner) in
  if present existingOwner then
    throw (ApiError httpStatus.CONFLICT "User with this email already exists")
  else
    let! OwnerCreated := Owner_create owner in
    ret (OwnerDoc.toObject OwnerCreated).

Definition OwnerService_getOwnerById (id : ObjectId) : Prog W IOwner.t :=
  let! owner := Model_findById Owner id in
  match owner with
  | None => throw (ApiError httpStatus.NOT_FOUND "User not found")
  | Some d => ret (OwnerDoc.toObject d)
  end.

Definition OwnerService_deleteOwner (id : ObjectId) : Prog W unit :=
  let! owner := Model_findByIdAndDelete Owner id in
  match owner with
  | None => throw (ApiError httpStatus.NOT_FOUND "User not found")
  | Some _ => ret tt
  end.

(** *** [UserOrchestrator] ([orchestrators/users/user.orchestrator.ts]) *)

Definition create_failed : Exn :=
  ApiError httpStatus.INTERNAL_SERVER_ERROR "Failed to create user".
Definition delete_failed : Exn :=
  ApiError httpStatus.INTERNAL_SERVER_ERROR "Failed to delete user".
Definition delete_inconsistent : Exn :=
  ApiError httpStatus.INTERNAL_SERVER_ERROR
    "Failed to delete user and rollback failed. Data inconsistency detected.".

(** [userId] is the value of [new Types.ObjectId()], which the method
    draws before anything else; the model takes it as an argument. *)
Definition UserOrchestrator_createEmployeeWithFirebase
    (data : IUser.t) (userId : ObjectId) : Prog W IUser.t :=
  with_local (None : option IUser.t)       (* let createdUser = null *)
    (try_catch
       (let! created :=
          lift_local (UserService_createUser
            {| IUser._id := Some userId;
               IUser.ownerId := IUser.ownerId data;
               IUser.name := IUser.name data;
               IUser.password := None;
               IUser.email := IUser.email data;
               IUser.role := IUser.role data;
               IUser.createdAt := None |}) in
        do! assign_local (Some created) in
        do! lift_local (Firebase_createUser
            {| uid := ObjectId_toString userId;
               cr_email := IUser.email data;
               cr_password := IUser.password data;
               displayName := IUser.name data |}) in
        ret created)
       (fun _error =>
          let! createdUser := read_local in
          do! (if present createdUser
               then lift_local (UserService_deleteUser userId)
               else ret tt) in
          throw create_failed)).

(** The argument of [createOwnerWithFirebase]. *)
Record OwnerData : Type := mkOwnerData {
  od_name : string;
  od_email : string;
  od_password : string
}.

Definition UserOrchestrator_createOwnerWithFirebase
    (data : OwnerData) (userId : ObjectId) : Prog W IOwner.t :=
  with_local (None : option IOwner.t)      (* let createdOwner = null *)
    (try_catch
       (let! created :=
          lift_local (OwnerService_createOwner
            {| IOwner._id := Some userId;
               IOwner.name := od_name data;
               IOwner.email := od_email data;
               IOwner.role := None;
               IOwner.createdAt := None |}) in
        do! assign_local (Some created) in
        do! lift_local (Firebase_createUser
            {| uid := ObjectId_toString userId;
               cr_email := od_email data;
               cr_password := Some (od_password data);
               displayName := od_name data |}) in
        ret created)
       (fun _error =>
          let! createdOwner := read_local in
          do! (if present createdOwner
               then lift_local (UserService_deleteUser userId)
               else ret tt) in
          throw create_failed)).

Definition UserOrchestrator_deleteUser (id : ObjectId) : Prog W unit :=
  with_local (None : option IUser.t)       (* let deletedUser = null *)
    (try_catch
       (let! user := lift_local (UserService_getUserById id) in
        do! lift_local (UserService_deleteUser id) in
        do! assign_local (Some user) in
        lift_local (Firebase_deleteUser (ObjectId_toString id)))
       (fun _error =>
          let! deletedUser := read_local in
          do! match deletedUser with
              | Some du =>
                  try_catch
                    (do! lift_local (UserService_createUser
                           {| IUser._id := IUser._id du;
                              IUser.ownerId := IUser.ownerId du;
                              IUser.name := IUser.name du;
                              IUser.password := None;
                              IUser.email := IUser.email du;
                              IUser.role := IUser.role du;
                              IUser.createdAt := None |}) in
                     ret tt)
                    (fun _rollbackError => throw delete_inconsistent)
              | None => ret tt
              end in
          throw delete_failed)).

Definition UserOrchestrator_deleteOwner (id : ObjectId) : Prog W unit :=
  with_local (None : option IOwner.t)      (* let deletedOwner = null *)
    (try_catch
       (let! owner := lift_local (OwnerService_getOwnerById id) in
        do! lift_local (OwnerService_deleteOwner id) in
        do! assign_local (Some owner) in
        lift_local (Firebase_deleteUser (ObjectId_toString id)))
       (fun _error =>
          let! deletedOwner := read_local in
          do! match deletedOwner with
              | Some dd =>
                  try_catch
                    (do! lift_local (OwnerService_createOwner
                           {| IOwner._id := IOwner._id dd;
                              IOwner.name := IOwner.name dd;
                              IOwner.email := IOwner.email dd;
                              IOwner.role := None;
                              IOwner.createdAt := None |}) in
                     ret tt)
                    (fun _rollbackError => throw delete_inconsistent)
              | None => ret tt
              end in
          throw delete_failed)).

(** *** The HTTP layer *)

Inductive ResponseBody : Type :=
  | EmptyBody
  | OwnerBody (data : IOwner.t)
  | UserBody (data : IUser.t)
  | ErrorBody (message : string).

Record Response : Type := mkResponse {
  status : Z;
  body : ResponseBody
}.

(** A promise that is started and never awaited: its effects take
    place, its result or rejection reaches nobody. *)
Definition detached {X} (m : Prog W X) : Prog W unit :=
  fun w => (Ok tt, snd (m w)).

(** The ids that the [isMongoId()] chain lets through and that
    [new Types.ObjectId(...)] parses: exactly 24 hexadecimal digits. *)
Definition is_hex_digit (c : ascii) : bool :=
  let n := N_of_ascii c in
  ((48 <=? n) && (n <=? 57) || (65 <=? n) && (n <=? 70) ||
   (97 <=? n) && (n <=? 102))%N.

Fixpoint all_hex (s : string) : bool :=
  match s with
  | EmptyString => true
  | String c rest => is_hex_digit c && all_hex rest
  end.

Definition isMongoId (s : string) : bool :=
  all_hex s && bool_decide (String.length s = 24%nat).

Definition lower_ascii (c : ascii) : ascii :=
  let n := N_of_ascii c in
  if ((65 <=? n) && (n <=? 90))%N then ascii_of_N (n + 32) else c.

Fixpoint lower (s : string) : string :=
  match s with
  | EmptyString => EmptyString
  | String c rest => String (lower_ascii c) (lower rest)
  end.

(** [new Types.ObjectId(hex)], for a string that passed [isMongoId]. *)
Definition ObjectId_fromString (hex : string) : ObjectId := lower hex.

(** [OwnerController] ([routes/apiv1/owner/owner.controller.ts]) *)
Definition OwnerController_create (data : OwnerData) (userId : ObjectId)
  : Prog W Response :=
  let! owner := UserOrchestrator_createOwnerWithFirebase data userId in
  ret (mkResponse httpStatus.CREATED (OwnerBody owner)).

Definition OwnerController_delete (params_id : string) : Prog W Response :=
  let id := ObjectId_fromString params_id in
  do! detached (UserOrchestrator_deleteOwner id) in
  ret (mkResponse httpStatus.NO_CONTENT EmptyBody).

(** [UserController] ([routes/apiv1/users/user.controller.ts]) *)
Definition UserController_create (data : IUser.t) (userId : ObjectId)
  : Prog W Response :=
  let! user := UserOrchestrator_createEmployeeWithFirebase data userId in
  ret (mkResponse httpStatus.CREATED (UserBody user)).

Definition UserController_updateRole (params_id : string) (role : UserRole)
  : Prog W Response :=
  let id := ObjectId_fromString params_id in
  let! updatedUser := UserService_updateUserRole id role in
  ret (mkResponse httpStatus.OK (UserBody updatedUser)).

Definition UserController_delete (params_id : string) : Prog W Response :=
  let id := ObjectId_fromString params_id in
  do! UserOrchestrator_deleteUser id in
  ret (mkResponse httpStatus.NO_CONTENT EmptyBody).

(** Modelled from the spec: [catchAsync] and the error middleware it
    hands rejections to are not among the sources.  The spec's mapping
    convention (NotFound to 404, Conflict to 409, any error raised by
    the orchestrator to 500) is the status an [ApiError] carries; any
    other thrown value answers 500. *)
Definition errorResponse (e : Exn) : Response :=
  match e with
  | ApiError statusCode message => mkResponse statusCode (ErrorBody message)
  | MongoError message | FirebaseAuthError message =>
      mkResponse httpStatus.INTERNAL_SERVER_ERROR (ErrorBody message)
  end.

Definition catchAsync (handler : Prog W Response) : Prog W Response :=
  try_catch handler (fun err => ret (errorResponse err)).

(** Modelled from the spec: [createValidation] is not among the
    sources; a request that fails a validation chain is answered 400
    before the handler runs.  The chain here is the one of
    [Validation.deleteOwner] and [UserValidation.deleteUser]. *)
Definition validate_id_param (params_id : string) (next : Prog W Response)
  : Prog W Response :=
  if isMongoId params_id then next
  else ret (mkResponse httpStatus.BAD_REQUEST (ErrorBody "id must be valid")).

(** [router.delete('/:id', Validation.deleteOwner(), catchAsync(OwnerController.delete))] *)
Definition OwnerRoutes_delete (params_id : string) : Prog W Response :=
  validate_id_param params_id (catchAsync (OwnerController_delete params_id)).

(** [router.delete('/:id', UserValidation.deleteUser(), catchAsync(UserController.delete))] *)
Definition UserRoutes_delete (params_id : string) : Prog W Response :=
  validate_id_param params_id (catchAsync (UserController_delete params_id)).

(** *** The two kinds of account, side by side *)

Inductive Kind : Type := KUser | KOwner.

(** The plain object a service returns for an account of a kind. *)
Definition Account (k : Kind) : Type :=
  match k with KUser => IUser.t | KOwner => IOwner.t end.

(** The stored document of an account of a kind. *)
Definition Stored (k : Kind) : Type :=
  match k with KUser => UserDoc.t | KOwner => OwnerDoc.t end.

(** The argument of the create workflow of a kind. *)
Definition CreateData (k : Kind) : Type :=
  match k with KUser => IUser.t | KOwner => OwnerData end.

Definition stored (k : Kind) (w : W) (id : ObjectId) : option (Stored k) :=
  match k with
  | KUser => users w !! id
  | KOwner => owners w !! id
  end.

Definition stored_email {k : Kind} : Stored k -> string :=
  match k with KUser => UserDoc.email | KOwner => OwnerDoc.email end.

Definition data_email {k : Kind} : CreateData k -> string :=
  match k with KUser => IUser.email | KOwner => od_email end.

Definition account_keys {k : Kind} : Account k -> list string :=
  match k with KUser => IUser.keys | KOwner => IOwner.keys end.

(** The calls each workflow makes, in the words of the workflow. *)
Definition service_create (k : Kind) (data : CreateData k) (userId : ObjectId)
  : Prog W (Account k) :=
  match k return CreateData k -> Prog W (Account k) with
  | KUser => fun data =>
      UserService_createUser
        {| IUser._id := Some userId;
           IUser.ownerId := IUser.ownerId data;
           IUser.name := IUser.name data;
           IUser.password := None;
           IUser.email := IUser.email data;
           IUser.role := IUser.role data;
           IUser.createdAt := None |}
  | KOwner => fun data =>
      OwnerService_createOwner
        {| IOwner._id := Some userId;
           IOwner.name := od_name data;
           IOwner.email := od_email data;
           IOwner.role := None;
           IOwner.createdAt := None |}
  end data.

Definition identity_create (k : Kind) (data : CreateData k) (userId : ObjectId)
  : Prog W unit :=
  match k return CreateData k -> Prog W unit with
  | KUser => fun data =>
      Firebase_createUser
        {| uid := ObjectId_toString userId;
           cr_email := IUser.email data;
           cr_password := IUser.password data;
           displayName := IUser.name data |}
  | KOwner => fun data =>
      Firebase_createUser
        {| uid := ObjectId_toString userId;
           cr_email := od_email data;
           cr_password := Some (od_password data);
           displayName := od_name data |}
  end data.

(** The compensating delete of the create workflow: both workflows
    call [UserService.deleteUser]. *)
Definition create_rollback (k : Kind) (userId : ObjectId) : Prog W unit :=
  match k with
  | KUser => UserService_deleteUser userId
  | KOwner => UserService_deleteUser userId
  end.

Definition orchestrator_create (k : Kind) (data : CreateData k) (userId : ObjectId)
  : Prog W (Account k) :=
  match k return CreateData k -> Prog W (Account k) with
  | KUser => fun data => UserOrchestrator_createEmployeeWithFirebase data userId
  | KOwner => fun data => UserOrchestrator_createOwnerWithFirebase data userId
  end data.

Definition service_getById (k : Kind) (id : ObjectId) : Prog W (Account k) :=
  match k with
  | KUser => UserService_getUserById id
  | KOwner => OwnerService_getOwnerById id
  end.

Definition service_delete (k : Kind) (id : ObjectId) : Prog W unit :=
  match k with
  | KUser => UserService_deleteUser id
  | KOwner => OwnerService_deleteOwner id
  end.

(** The compensating recreation of the delete workflow, from the
    snapshot the workflow fetched first. *)
Definition delete_rollback (k : Kind) (snapshot : Account k) : Prog W (Account k) :=
  match k return Account k -> Prog W (Account k) with
  | KUser => fun du =>
      UserService_createUser
        {| IUser._id := IUser._id du;
           IUser.ownerId := IUser.ownerId du;
           IUser.name := IUser.name du;
           IUser.password := None;
           IUser.email := IUser.email du;
           IUser.role := IUser.role du;
           IUser.createdAt := None |}
  | KOwner => fun dd =>
      OwnerService_createOwner
        {| IOwner._id := IOwner._id dd;
           IOwner.name := IOwner.name dd;
           IOwner.email := IOwner.email dd;
           IOwner.role := None;
           IOwner.createdAt := None |}
  end snapshot.

Definition orchestrator_delete (k : Kind) (id : ObjectId) : Prog W unit :=
  match k with
  | KUser => UserOrchestrator_deleteUser id
  | KOwner => UserOrchestrator_deleteOwner id
  end.

(** A stored document with both timestamps set to [t]. *)
Definition restamped {k : Kind} (t : Date) : Stored k -> Stored k :=
  match k with
  | KUser => fun d =>
      {| UserDoc.name := UserDoc.name d;
         UserDoc.ownerId := UserDoc.ownerId d;
         UserDoc.email := UserDoc.email d;
         UserDoc.role := UserDoc.role d;
         UserDoc.createdAt := t;
         UserDoc.updatedAt := t |}
  | KOwner => fun d =>
      {| OwnerDoc.name := OwnerDoc.name d;
         OwnerDoc.email := OwnerDoc.email d;
         OwnerDoc.role := OwnerDoc.role d;
         OwnerDoc.createdAt := t;
         OwnerDoc.updatedAt := t |}
  end.

(** Every orchestrator workflow, with its arguments. *)
Inductive Workflow : Type :=
  | CreateEmployee (data : IUser.t) (userId : ObjectId)
  | CreateOwner (data : OwnerData) (userId : ObjectId)
  | DeleteUser (id : ObjectId)
  | DeleteOwner (id : ObjectId).

Definition run_workflow (wf : Workflow) : W -> W :=
  match wf with
  | CreateEmployee data userId =>
      fun w => snd (UserOrchestrator_createEmployeeWithFirebase data userId w)
  | CreateOwner data userId =>
      fun w => snd (UserOrchestrator_createOwnerWithFirebase data userId w)
  | DeleteUser id => fun w => snd (UserOrchestrator_deleteUser id w)
  | DeleteOwner id => fun w => snd (UserOrchestrator_deleteOwner id w)
  end.
End Orchestration.

Arguments Model {A} Doc.
Arguments collection {A Doc}.
Arguments set_collection {A Doc}.
Arguments doc_email {A Doc}.
Arguments Response : clear implicits.

(** ** Test doubles for the Firebase Auth backend *)

(** [FirebaseMock] of [test/common/mocks/pluggins.ts]: a dictionary
    [users] from uid to the stored [userData] and its custom claim.
    [createUser] always files the data under ['mocked-user-uid']; no
    operation ever rejects. *)
Module FirebaseMock.
Definition t : Type := gmap string (CreateRequest * option string).

Definition createUser (userData : CreateRequest) : Prog t unit :=
  let uid := "mocked-user-uid" in
  modify (fun users => <[uid := (userData, None)]> users).

Definition setCustomClaims (uid role : string) : Prog t unit :=
  let! users := get in
  match users !! uid with
  | Some (userData, _) => put (<[uid := (userData, Some role)]> users)
  | None => ret tt
  end.

Definition deleteUser (uid : string) : Prog t unit :=
  let! users := get in
  if present (users !! uid) then put (delete uid users) else ret tt.

#[global] Instance backend : AuthBackend t :=
  {| auth_createUser := createUser;
     auth_setCustomUserClaims := setCustomClaims;
     auth_deleteUser := deleteUser |}.
End FirebaseMock.

(** A backend that follows a script: the fate of each coming call, one
    entry each; [Some code] makes the call reject with that error code.
    Once the script is used up every call goes through. *)
Module ScriptedAuth.
Definition t : Type := list (option string).

Definition call : Prog t unit :=
  fun script =>
    match script with
    | [] => (Ok tt, [])
    | None :: rest => (Ok tt, rest)
    | Some code :: rest => (Throw (FirebaseAuthError code), rest)
    end.

#[global] Instance backend : AuthBackend t :=
  {| auth_createUser := fun _ => call;
     auth_setCustomUserClaims := fun _ _ => call;
     auth_deleteUser := fun _ => call |}.
End ScriptedAuth.

(** * Vocabulary of the properties *)

Section Frames.
Context {A : Type} {backend : AuthBackend A}.

(** What a round trip to MongoDB leaves alone: the Firebase service,
    the log of calls to the plugin and the clock. *)
Definition mongo_frame (w w' : World A) : Prop :=
  auth w' = auth w ∧ calls w' = calls w ∧ now w' = now w.

(** What a call to the Firebase plugin leaves alone: both collections,
    the clock and the coming database faults. *)
Definition firebase_frame (w w' : World A) : Prop :=
  users w' = users w ∧ owners w' = owners w ∧ now w' = now w ∧
  mongo_faults w' = mongo_faults w.

(** Some stored account of the kind has this email. *)
Definition email_in_use (k : Kind) (w : World A) (e : string) : Prop :=
  ∃ id d, stored k w id = Some d ∧ stored_email d = e.

(** The calls logged by a run from [w] to [w']. *)
Definition new_calls (w w' : World A) (delta : list FirebaseCall) : Prop :=
  calls w' = (calls w ++ delta)%list.
End Frames.

(** ** The paths a claim speaks about *)

Section Paths.
Context {A : Type} {backend : AuthBackend A}.
Implicit Types w : World A.


(** A create workflow whose identity creation failed, whatever became
    of the compensating delete (outcome [r]), ending in [w']. *)
Definition create_identity_failed (k : Kind) (data : CreateData k)
    (userId : ObjectId) (w : World A) (r : Result unit) (w' : World A) : Prop :=
  ∃ created w1 e w2,
    service_create k data userId w = (Ok created, w1) ∧
    identity_create k data userId w1 = (Throw e, w2) ∧
    create_rollback k userId w2 = (r, w').

(** A delete workflow whose identity deletion failed after the local
    delete succeeded; [r] is the outcome of the compensating
    recreation, [t] the clock reading at that moment. *)
Definition delete_identity_failed (k : Kind) (id : ObjectId)
    (w : World A) (r : Result (Account k)) (t : Date) (w' : World A) : Prop :=
  ∃ snapshot w1 w2 e w3,
    service_getById k id w = (Ok snapshot, w1) ∧
    service_delete k id w1 = (Ok tt, w2) ∧
    Firebase_deleteUser (ObjectId_toString id) w2 = (Throw e, w3) ∧
    t = now w3 ∧
    delete_rollback k snapshot w3 = (r, w').
End Paths.

(** * Scenarios

    Concrete worlds on which the properties below are run.  The
    Firebase backend is the scripted double; the [users] collection
    holds one employee, Alice, created at time 1000; the clock reads
    5000. *)
Module Scenario.
Definition owner_ref : ObjectId := "6819ad232a7d1f5f12288355".
Definition alice_id : ObjectId := "65f0c0ffee00000000000001".
Definition fresh_id : ObjectId := "65f0c0ffee00000000000002".

Definition alice : UserDoc.t :=
  {| UserDoc.name := "Alice";
     UserDoc.ownerId := owner_ref;
     UserDoc.email := "alice@example.com";
     UserDoc.role := EMPLOYEE;
     UserDoc.createdAt := 1000;
     UserDoc.updatedAt := 1000 |}.

(** [script] is the fate of the coming Firebase calls, [faults] that
    of the coming database round trips. *)
Definition world (script faults : list (option string))
  : World ScriptedAuth.t :=
  mkWorld {[ alice_id := alice ]} ∅ script 5000 faults [].

(** A Firebase service that rejects the next call. *)
Definition rejecting : list (option string) := [Some "auth/internal-error"].

Definition john : OwnerData :=
  mkOwnerData "John Doe" "john@example.com" "SecurePass123!".

Definition bob : IUser.t :=
  {| IUser._id := None;
     IUser.ownerId := owner_ref;
     IUser.name := "Bob";
     IUser.password := Some "SecurePass123!";
     IUser.email := "bob@example.com";
     IUser.role := MANAGER;
     IUser.createdAt := None |}.

(** A second user with Alice's email. *)
Definition impostor : IUser.t :=
  {| IUser._id := None;
     IUser.ownerId := owner_ref;
     IUser.name := "Another User";
     IUser.password := Some "DifferentPassword123!";
     IUser.email := "alice@example.com";
     IUser.role := MANAGER;
     IUser.createdAt := None |}.

(** The world of the end-to-end tests before each test: both
    collections emptied, Firebase replaced by [FirebaseMock]. *)
Definition test_world : World FirebaseMock.t :=
  mkWorld ∅ ∅ ∅ 5000 [] [].

(** The owner document that registering [john] stores at time 5000. *)
Definition john_doc : OwnerDoc.t :=
  {| OwnerDoc.name := "John Doe";
     OwnerDoc.email := "john@example.com";
     OwnerDoc.role := OWNER;
     OwnerDoc.createdAt := 5000;
     OwnerDoc.updatedAt := 5000 |}.
End Scenario.

(** * Further vocabulary *)

Section ServiceVocabulary.
Context {A : Type} {backend : AuthBackend A}.

(** The fault, if any, that the next database round trip meets. *)
Definition next_fault (w : World A) : option string :=
  match mongo_faults w with
  | Some msg :: _ => Some msg
  | _ => None
  end.


(** The two services, side by side. *)
Definition service_insert (k : Kind) : Account k -> Prog (World A) (Account k) :=
  match k with
  | KUser => UserService_createUser
  | KOwner => OwnerService_createOwner
  end.

Definition account_id {k : Kind} : Account k -> option ObjectId :=
  match k with KUser => IUser._id | KOwner => IOwner._id end.

Definition not_found : Exn := ApiError httpStatus.NOT_FOUND "User not found".

(** [.toObject()] / [.lean()] for either kind. *)
Definition to_account {k : Kind} (id : ObjectId) : Stored k -> Account k :=
  match k with
  | KUser => fun d => UserDoc.toObject (id, d)
  | KOwner => fun d => OwnerDoc.toObject (id, d)
  end.

(** The document that a create workflow stores for its input at time
    [t]. *)
Definition new_document {k : Kind} (t : Date) : CreateData k -> Stored k :=
  match k with
  | KUser => fun data =>
      {| UserDoc.name := IUser.name data;
         UserDoc.ownerId := IUser.ownerId data;
         UserDoc.email := IUser.email data;
         UserDoc.role := IUser.role data;
         UserDoc.createdAt := t;
         UserDoc.updatedAt := t |}
  | KOwner => fun data =>
      {| OwnerDoc.name := od_name data;
         OwnerDoc.email := od_email data;
         OwnerDoc.role := OWNER;
         OwnerDoc.createdAt := t;
         OwnerDoc.updatedAt := t |}
  end.

(** The collection of the other kind. *)
Definition other (k : Kind) : Kind :=
  match k with KUser => KOwner | KOwner => KUser end.

(** No two documents of a collection share an email. *)
Definition emails_unique (k : Kind) (w : World A) : Prop :=
  ∀ id1 id2 d1 d2,
    stored k w id1 = Some d1 → stored k w id2 = Some d2 →
    stored_email d1 = stored_email d2 → id1 = id2.

(** A user document with its role set to [r] at time [t], as
    [findByIdAndUpdate(id, { role })] leaves it. *)
Definition with_role (r : UserRole) (t : Date) (d : UserDoc.t) : UserDoc.t :=
  {| UserDoc.name := UserDoc.name d;
     UserDoc.ownerId := UserDoc.ownerId d;
     UserDoc.email := UserDoc.email d;
     UserDoc.role := r;
     UserDoc.createdAt := UserDoc.createdAt d;
     UserDoc.updatedAt := t |}.

(** A step that never reads the [owners] collection: it runs the same
    way whatever the collection holds. *)
Definition ignores_owners {X} (step : Prog (World A) X) : Prop :=
  ∀ m w, step (set_owners m w) = (fst (step w), set_owners m (snd (step w))).
End ServiceVocabulary.

(** * Further fixtures *)
Module Fixture.
(** [Scenario.bob] as [createEmployeeWithFirebase] hands him to the
    service: with the generated id, without the password. *)
Definition bob_record : IUser.t :=
  {| IUser._id := Some Scenario.fresh_id;
     IUser.ownerId := Scenario.owner_ref;
     IUser.name := "Bob";
     IUser.password := None;
     IUser.email := "bob@example.com";
     IUser.role := MANAGER;
     IUser.createdAt := None |}.

(** A world with no fault to come and a Firebase that accepts. *)
Definition calm : World ScriptedAuth.t := Scenario.world [] [].
End Fixture.

(** * The two read handlers ([owner.controller.ts], [user.controller.ts])

    As for the other handlers, [params_id] is an id of 24 hexadecimal
    digits; on any other string [new Types.ObjectId(...)] throws, which
    [ObjectId_fromString] does not model. *)

Section ReadControllers.
Context {A : Type} {backend : AuthBackend A}.

Definition UserController_getById (params_id : string)
  : Prog (World A) Response :=
  let id := ObjectId_fromString params_id in
  let! user := UserService_getUserById id in
  ret (mkResponse httpStatus.OK (UserBody user)).

Definition OwnerController_getById (params_id : string)
  : Prog (World A) Response :=
  let id := ObjectId_fromString params_id in
  let! owner := OwnerService_getOwnerById id in
  ret (mkResponse httpStatus.OK (OwnerBody owner)).

Definition controller_getById (k : Kind) : string -> Prog (World A) Response :=
  match k with
  | KUser => UserController_getById
  | KOwner => OwnerController_getById
  end.

Definition account_body {k : Kind} : Account k -> ResponseBody :=
  match k with KUser => UserBody | KOwner => OwnerBody end.
End ReadControllers.

(** * Middlewares ([src/middlewares/auth.ts]) *)

Module Auth.
Definition UNAUTHORIZED : Z := 401.

(** [s.indexOf(needle) !== -1] *)
Fixpoint includes (needle s : string) : bool :=
  String.prefix needle s ||
  match s with
  | EmptyString => false
  | String _ rest => includes needle rest
  end.

(** [s.split(sep)] for a separator of one character. *)
Fixpoint split (sep : ascii) (s : string) : list string :=
  match s with
  | EmptyString => [EmptyString]
  | String c rest =>
      if Ascii.eqb c sep then EmptyString :: split sep rest
      else match split sep rest with
           | h :: t => String c h :: t
           | [] => [String c EmptyString]
           end
  end.

(** Whether a character occurs in a string. *)
Fixpoint occurs (c : ascii) (s : string) : bool :=
  match s with
  | EmptyString => false
  | String c' rest => Ascii.eqb c' c || occurs c rest
  end.

Definition missing_header : Exn :=
  ApiError UNAUTHORIZED "Missing Authorization Header".
Definition invalid_credentials : Exn :=
  ApiError UNAUTHORIZED "Invalid Authentication Credentials".

Section BasicAuthorization.
(** [Buffer.from(s, 'base64').toString('ascii')], a Node built-in. *)
Variable base64_to_ascii : string -> string.
(** [config.get('authorization.username')] and [...password')]. *)
Variables apiUsername apiPassword : string.

(** [apiBasicAuthorization]: [authorization] is
    [req.header('authorization')]; [Ok tt] is the call of [next()]. *)
Definition apiBasicAuthorization (authorization : option string) : Result unit :=
  match authorization with
  | None => Throw missing_header
  | Some authorization =>
      if bool_decide (authorization = "") ||
         negb (includes "Basic " authorization)
      then Throw missing_header
      else
        let base64Credentials :=
          default "" (split " " authorization !! 1%nat) in
        let credentials := base64_to_ascii base64Credentials in
        let parts := split ":" credentials in
        let username := parts !! 0%nat in
        let password := parts !! 1%nat in
        if bool_decide (username ≠ Some apiUsername) ||
           bool_decide (password ≠ Some apiPassword)
        then Throw invalid_credentials
        else Ok tt
  end.
End BasicAuthorization.

(** The parts of the request that [firebaseAuth] reads and writes. *)
Record Request : Type := mkRequest {
  userauthorization : option string;   (* req.headers?.userauthorization *)
  userId : option string               (* req.userId *)
}.

Definition unauthorized_token : Exn :=
  ApiError UNAUTHORIZED "Unauthorized Token. Access Denied".
Definition token_expired : Exn :=
  ApiError UNAUTHORIZED "The access token expired".

Section FirebaseAuth.
(** [admin.auth().verifyIdToken(token)]: the [user_id] of the decoded
    token, [None] for a falsy result, or a rejection. *)
Variable verifyIdToken : string -> Result (option string).

(** [e.errorInfo?.code === 'auth/id-token-expired']: only errors of the
    Firebase Admin SDK carry an [errorInfo]. *)
Definition is_expired (e : Exn) : bool :=
  match e with
  | FirebaseAuthError code => bool_decide (code = "auth/id-token-expired")
  | _ => false
  end.

(** [firebaseAuth]: a normal return is the call of [next()]. *)
Definition firebaseAuth : Prog Request unit :=
  try_catch
    (let! req := get in
     match userauthorization req with
     | None => throw unauthorized_token
     | Some token =>
         let! decodedToken := (fun s => (verifyIdToken token, s)) in
         match decodedToken with
         | None => throw unauthorized_token
         | Some user_id => put (mkRequest (userauthorization req) (Some user_id))
         end
     end)
    (fun e =>
       if is_expired e then throw token_expired
       else throw unauthorized_token).
End FirebaseAuth.
End Auth.

(** * Waiting for the database ([src/modules/db.module.ts]) *)

Module DbModule.
(** The listener that [onDBConnectionsReady] puts on each connection:
    the state is [readyConnections] and the number of times [callback]
    has run. *)
Definition on_connected (connections : list string)
    (st : list string * nat) (connection : string) : list string * nat :=
  let readyConnections := (fst st ++ [connection])%list in
  (readyConnections,
   if Nat.eqb (length readyConnections) (length connections)
   then S (snd st) else snd st).

(** [const connections = [app]] *)
Definition connections : list string := ["app"].

(** The ['connected'] events of the connections, in order of arrival. *)
Definition onDBConnectionsReady (events : list string) : list string * nat :=
  fold_left (on_connected connections) events ([], 0%nat).
End DbModule.

(** * Properties *)

Ltac prog_unfold :=
  unfold bind, ret, throw, try_catch, get, put, modify,
    with_local, lift_local, read_local, assign_local, detached in *.

Ltac invert H := inversion H; subst; clear H.

Section RunFacts.
Context {A : Type} {backend : AuthBackend A}.
Implicit Types w : World A.

Lemma mongo_io_spec w r w' :
  mongo_io w = (r, w') →
  users w' = users w ∧ owners w' = owners w ∧ mongo_frame w w'.
Proof.
  unfold mongo_io, mongo_frame.
  destruct (mongo_faults w) as [|[msg|] rest]; intros H; invert H; done.
Qed.

Lemma bind_inv {S X Y} (m : Prog S X) (k : X → Prog S Y) s r s' :
  bind m k s = (r, s') →
  (∃ a s1, m s = (Ok a, s1) ∧ k a s1 = (r, s')) ∨
  (∃ e, m s = (Throw e, s') ∧ r = Throw e).
Proof.
  unfold bind. destruct (m s) as [[a|e] s1]; intros H.
  - left. by exists a, s1.
  - right. invert H. by exists e.
Qed.
End RunFacts.

(** Case analysis on the next database round trip of a run. *)
Ltac round_trip H :=
  match type of H with
  | context [mongo_io ?w] =>
      let Hio := fresh "Hio" in
      let w1 := fresh "w" in
      destruct (mongo_io w) as [[[]|?] w1] eqn:Hio;
      apply mongo_io_spec in Hio as (? & ? & (? & ? & ?));
      simpl in H
  end.

(** Follows a run through its sequenced steps, one branch at a time. *)
Ltac prog_inv :=
  repeat match goal with
    | H : bind _ _ _ = (_, _) |- _ =>
        apply bind_inv in H as [(? & ? & ? & H) | (? & H & ?)];
        simplify_eq; cbv beta in *
    | H : ret _ _ = (_, _) |- _ => unfold ret in H; invert H
    | H : throw _ _ = (_, _) |- _ => unfold throw in H; invert H
    | H : get _ = (_, _) |- _ => unfold get in H; invert H
    | H : put _ _ = (_, _) |- _ => unfold put in H; invert H
    | H : mongo_io _ = (_, _) |- _ =>
        apply mongo_io_spec in H as (? & ? & (? & ? & ?))
    | H : (if ?b then _ else _) _ = (_, _) |- _ => destruct b eqn:?
    | H : (match ?x with _ => _ end) _ = (_, _) |- _ => destruct x eqn:?
    end.

Section ServiceFacts.
Context {A : Type} {backend : AuthBackend A}.
Implicit Types w : World A.

Ltac delete_script :=
  unfold UserService_deleteUser, OwnerService_deleteOwner,
    Model_findByIdAndDelete, mongo_frame;
  prog_unfold; simpl;
  let H := fresh "H" in
  intros H; round_trip H;
  [ match type of H with
    | context [?m !! ?id] => destruct (m !! id) eqn:?
    end | ];
  invert H; simpl; split_and!; congruence.

Lemma UserService_deleteUser_spec id w r w' :
  UserService_deleteUser id w = (r, w') →
  owners w' = owners w ∧ mongo_frame w w' ∧
  match r with
  | Ok _ => users w' = delete id (users w)
  | Throw _ => users w' = users w
  end.
Proof. delete_script. Qed.

Lemma OwnerService_deleteOwner_spec id w r w' :
  OwnerService_deleteOwner id w = (r, w') →
  users w' = users w ∧ mongo_frame w w' ∧
  match r with
  | Ok _ => owners w' = delete id (owners w)
  | Throw _ => owners w' = owners w
  end.
Proof. delete_script. Qed.

Ltac getById_script :=
  unfold UserService_getUserById, OwnerService_getOwnerById,
    Model_findById, mongo_frame;
  prog_unfold; simpl;
  let H := fresh "H" in
  intros H; round_trip H;
  [ match type of H with
    | context [?m !! ?id] => destruct (m !! id) eqn:?
    end | ];
  invert H; simpl; split_and!; try congruence;
  try (intros ? [= <-]; eexists; split; [| reflexivity];
       etrans; [| eassumption]; congruence).

Lemma UserService_getUserById_spec id w r w' :
  UserService_getUserById id w = (r, w') →
  users w' = users w ∧ owners w' = owners w ∧ mongo_frame w w' ∧
  ∀ u, r = Ok u → ∃ d, users w !! id = Some d ∧ u = UserDoc.toObject (id, d).
Proof. getById_script. Qed.

Lemma OwnerService_getOwnerById_spec id w r w' :
  OwnerService_getOwnerById id w = (r, w') →
  users w' = users w ∧ owners w' = owners w ∧ mongo_frame w w' ∧
  ∀ o, r = Ok o → ∃ d, owners w !! id = Some d ∧ o = OwnerDoc.toObject (id, d).
Proof. getById_script. Qed.

Ltac create_script :=
  unfold UserService_createUser, OwnerService_createOwner,
    Model_findOne_email, User_create, Owner_create,
    required_id, required_string, Model_insert, mongo_frame;
  intros; prog_inv; simpl in *; split_and!; try congruence;
  eexists; split_and!; try reflexivity;
  repeat match goal with
         | Hb : _ || _ = false |- _ => apply orb_false_iff in Hb as [? ?]
         | Hb : bool_decide _ = false |- _ => apply bool_decide_eq_false in Hb
         | Hn : ¬ is_Some _ |- _ => apply eq_None_not_Some in Hn
         end;
  congruence.

Lemma UserService_createUser_spec user w r w' :
  UserService_createUser user w = (r, w') →
  owners w' = owners w ∧ mongo_frame w w' ∧
  match r with
  | Ok created =>
      ∃ id, IUser._id user = Some id ∧ users w !! id = None ∧
            users w' = <[id := UserDoc.build user (now w)]> (users w) ∧
            created = UserDoc.toObject (id, UserDoc.build user (now w))
  | Throw _ => users w' = users w
  end.
Proof. create_script. Qed.

Lemma OwnerService_createOwner_spec owner w r w' :
  OwnerService_createOwner owner w = (r, w') →
  users w' = users w ∧ mongo_frame w w' ∧
  match r with
  | Ok created =>
      ∃ id, IOwner._id owner = Some id ∧ owners w !! id = None ∧
            owners w' = <[id := OwnerDoc.build owner (now w)]> (owners w) ∧
            created = OwnerDoc.toObject (id, OwnerDoc.build owner (now w))
  | Throw _ => owners w' = owners w
  end.
Proof. create_script. Qed.

(** [findOne({ email })] misses only when no document has the email. *)
Lemma findOne_miss {Doc} (M : @Model A Doc) e (m : gmap string Doc) id d :
  list_find (has_email M e) (map_to_list m) = None →
  m !! id = Some d → doc_email M d ≠ e.
Proof.
  intros Hnone Hin. apply list_find_None in Hnone.
  rewrite Forall_forall in Hnone.
  apply (Hnone (id, d)). by apply elem_of_map_to_list.
Qed.

Ltac in_use_script :=
  unfold UserService_createUser, OwnerService_createOwner,
    Model_findOne_email;
  intros (id & d & Hin & Hmail) Hrun; prog_inv; eauto;
  match goal with
  | Hmiss : present (snd <$> list_find ?P ?l) = false |- _ =>
      destruct (list_find P l) eqn:Hfind; [discriminate Hmiss |];
      apply (findOne_miss _ _ _ id d) in Hfind;
      [exfalso; apply Hfind; simpl; congruence | simpl; congruence]
  end.

Lemma UserService_createUser_in_use user w r w' :
  (∃ id d, users w !! id = Some d ∧ UserDoc.email d = IUser.email user) →
  UserService_createUser user w = (r, w') → ∃ e, r = Throw e.
Proof. in_use_script. Qed.

Lemma OwnerService_createOwner_in_use owner w r w' :
  (∃ id d, owners w !! id = Some d ∧ OwnerDoc.email d = IOwner.email owner) →
  OwnerService_createOwner owner w = (r, w') → ∃ e, r = Throw e.
Proof. in_use_script. Qed.

(** The Firebase plugin logs each call and touches nothing local. *)
Lemma lift_auth_spec {X} (m : Prog A X) w r w' :
  lift_auth m w = (r, w') →
  firebase_frame w w' ∧ calls w' = calls w.
Proof.
  unfold lift_auth, firebase_frame.
  destruct (m (auth w)) as [r1 a']. intros H. by invert H.
Qed.

Lemma log_call_spec c w r w' :
  log_call c w = (r, w') →
  r = Ok tt ∧ firebase_frame w w' ∧ calls w' = (calls w ++ [c])%list.
Proof. unfold log_call, modify, firebase_frame. intros H. by invert H. Qed.

Lemma Firebase_createUser_spec userData w r w' :
  Firebase_createUser userData w = (r, w') →
  firebase_frame w w' ∧
  calls w' = (calls w ++ [CreateUserCall userData])%list.
Proof.
  unfold Firebase_createUser, firebase_frame. intros H. prog_inv;
    repeat match goal with
      | Hl : log_call _ _ = _ |- _ =>
          apply log_call_spec in Hl as (? & (? & ? & ? & ?) & ?)
      | Hl : lift_auth _ _ = _ |- _ =>
          apply lift_auth_spec in Hl as ((? & ? & ? & ?) & ?)
      end; simplify_eq; split_and!; congruence.
Qed.

Lemma Firebase_deleteUser_spec uid w r w' :
  Firebase_deleteUser uid w = (r, w') →
  firebase_frame w w' ∧
  calls w' = (calls w ++ [DeleteUserCall uid])%list.
Proof.
  unfold Firebase_deleteUser, firebase_frame. intros H. prog_inv;
    repeat match goal with
      | Hl : log_call _ _ = _ |- _ =>
          apply log_call_spec in Hl as (? & (? & ? & ? & ?) & ?)
      | Hl : lift_auth _ _ = _ |- _ =>
          apply lift_auth_spec in Hl as ((? & ? & ? & ?) & ?)
      end; simplify_eq; split_and!; congruence.
Qed.
End ServiceFacts.

(** ** The workflows, branch by branch

    Each lemma fixes the outcome of the steps a workflow takes and gives
    the outcome of the workflow.  Together they cover every path through
    the two [try]/[catch] shapes of the orchestrator. *)
Section WorkflowBranches.
Context {A : Type} {backend : AuthBackend A}.
Implicit Types w : World A.

Ltac branch_script k :=
  destruct k; simpl in *;
  unfold UserOrchestrator_createEmployeeWithFirebase,
    UserOrchestrator_createOwnerWithFirebase,
    UserOrchestrator_deleteUser, UserOrchestrator_deleteOwner;
  prog_unfold; simpl;
  repeat match goal with
         | H : _ = (_, _) |- _ => rewrite H; clear H; simpl
         end;
  try reflexivity.

Lemma create_local_failed k data userId w e w1 :
  service_create k data userId w = (Throw e, w1) →
  orchestrator_create k data userId w = (Throw create_failed, w1).
Proof. intros H1. branch_script k. Qed.

Lemma create_succeeded k data userId w created w1 w2 :
  service_create k data userId w = (Ok created, w1) →
  identity_create k data userId w1 = (Ok tt, w2) →
  orchestrator_create k data userId w = (Ok created, w2).
Proof. intros H1 H2. branch_script k. Qed.

Lemma create_rolled_back k data userId w created w1 e w2 r w3 :
  service_create k data userId w = (Ok created, w1) →
  identity_create k data userId w1 = (Throw e, w2) →
  create_rollback k userId w2 = (r, w3) →
  orchestrator_create k data userId w =
    (match r with
     | Ok _ => Throw create_failed
     | Throw e' => Throw e'
     end, w3).
Proof. intros H1 H2 H3. branch_script k; by destruct r as [[]|]. Qed.

Lemma delete_fetch_failed k id w e w1 :
  service_getById k id w = (Throw e, w1) →
  orchestrator_delete k id w = (Throw delete_failed, w1).
Proof. intros H1. branch_script k. Qed.

Lemma delete_local_failed k id w snapshot w1 e w2 :
  service_getById k id w = (Ok snapshot, w1) →
  service_delete k id w1 = (Throw e, w2) →
  orchestrator_delete k id w = (Throw delete_failed, w2).
Proof. intros H1 H2. branch_script k. Qed.

Lemma delete_succeeded k id w snapshot w1 w2 w3 :
  service_getById k id w = (Ok snapshot, w1) →
  service_delete k id w1 = (Ok tt, w2) →
  Firebase_deleteUser (ObjectId_toString id) w2 = (Ok tt, w3) →
  orchestrator_delete k id w = (Ok tt, w3).
Proof. intros H1 H2 H3. branch_script k. Qed.

Lemma delete_rolled_back k id w snapshot w1 w2 e w3 r w4 :
  service_getById k id w = (Ok snapshot, w1) →
  service_delete k id w1 = (Ok tt, w2) →
  Firebase_deleteUser (ObjectId_toString id) w2 = (Throw e, w3) →
  delete_rollback k snapshot w3 = (r, w4) →
  orchestrator_delete k id w =
    (match r with
     | Ok _ => Throw delete_failed
     | Throw _ => Throw delete_inconsistent
     end, w4).
Proof. intros H1 H2 H3 H4. branch_script k; by destruct r. Qed.
End WorkflowBranches.

Section DeleteRollback.
Context {A : Type} {backend : AuthBackend A}.
Implicit Types w : World A.

Lemma delete_identity_failed_outcome k id w r t w' :
  delete_identity_failed k id w r t w' →
  orchestrator_delete k id w =
    (match r with
     | Ok _ => Throw delete_failed
     | Throw _ => Throw delete_inconsistent
     end, w').
Proof.
  intros (snapshot & w1 & w2 & e & w3 & H1 & H2 & H3 & _ & H4).
  by eapply delete_rolled_back.
Qed.

(** What the compensating recreation stores: the snapshot's name,
    email, role (and owner reference), under the same id, with fresh
    timestamps. *)
Lemma delete_rollback_stores k id w restored t w' :
  delete_identity_failed k id w (Ok restored) t w' →
  ∃ d, stored k w id = Some d ∧ stored k w' id = Some (restamped t d).
Proof.
  intros (snapshot & w1 & w2 & e & w3 & H1 & H2 & H3 & -> & H4).
  apply Firebase_deleteUser_spec in H3 as ((Hu3 & Ho3 & Hn3 & _) & _).
  destruct k; simpl in *.
  - apply UserService_getUserById_spec in H1 as (Hu1 & _ & _ & Hsnap).
    destruct (Hsnap _ eq_refl) as (d & Hd & ->).
    apply UserService_createUser_spec in H4 as (_ & _ & id' & Hid & _ & Hu4 & _).
    simpl in Hid. invert Hid.
    exists d. split; [done |]. rewrite Hu4. by rewrite lookup_insert_eq.
  - apply OwnerService_getOwnerById_spec in H1 as (_ & Ho1 & _ & Hsnap).
    destruct (Hsnap _ eq_refl) as (d & Hd & ->).
    apply OwnerService_createOwner_spec in H4 as (_ & _ & id' & Hid & _ & Ho4 & _).
    simpl in Hid. invert Hid.
    exists d. split; [done |]. rewrite Ho4, lookup_insert_eq.
    unfold OwnerDoc.build. simpl. by destruct (OwnerDoc.role d).
Qed.
End DeleteRollback.

(** ** What each step leaves alone, for both kinds of account *)
Section StepFrames.
Context {A : Type} {backend : AuthBackend A}.
Implicit Types w : World A.

Lemma service_create_frame k data userId w r w' :
  service_create k data userId w = (r, w') → mongo_frame w w'.
Proof.
  destruct k; simpl; intros H.
  - by apply UserService_createUser_spec in H as (_ & ? & _).
  - by apply OwnerService_createOwner_spec in H as (_ & ? & _).
Qed.

Lemma create_rollback_frame k userId w r w' :
  create_rollback k userId w = (r, w') → mongo_frame w w'.
Proof.
  destruct k; simpl; intros H;
    by apply UserService_deleteUser_spec in H as (_ & ? & _).
Qed.

Lemma service_getById_frame k id w r w' :
  service_getById k id w = (r, w') → mongo_frame w w'.
Proof.
  destruct k; simpl; intros H.
  - by apply UserService_getUserById_spec in H as (_ & _ & ? & _).
  - by apply OwnerService_getOwnerById_spec in H as (_ & _ & ? & _).
Qed.

Lemma service_delete_frame k id w r w' :
  service_delete k id w = (r, w') → mongo_frame w w'.
Proof.
  destruct k; simpl; intros H.
  - by apply UserService_deleteUser_spec in H as (_ & ? & _).
  - by apply OwnerService_deleteOwner_spec in H as (_ & ? & _).
Qed.

Lemma delete_rollback_frame k snapshot w r w' :
  delete_rollback k snapshot w = (r, w') → mongo_frame w w'.
Proof.
  destruct k; simpl; intros H.
  - by apply UserService_createUser_spec in H as (_ & ? & _).
  - by apply OwnerService_createOwner_spec in H as (_ & ? & _).
Qed.

Lemma identity_create_calls k data userId w r w' :
  identity_create k data userId w = (r, w') →
  ∃ userData, calls w' = (calls w ++ [CreateUserCall userData])%list.
Proof.
  destruct k; simpl; intros H;
    apply Firebase_createUser_spec in H as (_ & ?); eauto.
Qed.

(** A create workflow logs at most one call, a [createUser]. *)
Lemma orchestrator_create_calls k data userId w :
  ∃ delta, new_calls w (snd (orchestrator_create k data userId w)) delta ∧
           (delta = [] ∨ ∃ userData, delta = [CreateUserCall userData]).
Proof.
  unfold new_calls.
  destruct (service_create k data userId w) as [[created|e] w1] eqn:H1.
  2: { rewrite (create_local_failed _ _ _ _ _ _ H1). simpl.
       apply service_create_frame in H1 as (_ & Hc & _).
       exists []. rewrite Hc, app_nil_r. auto. }
  destruct (identity_create k data userId w1) as [[[]|e] w2] eqn:H2.
  { rewrite (create_succeeded _ _ _ _ _ _ _ H1 H2). simpl.
    apply service_create_frame in H1 as (_ & Hc & _).
    apply identity_create_calls in H2 as (userData & Hc2).
    exists [CreateUserCall userData]. rewrite Hc2, Hc. eauto. }
  destruct (create_rollback k userId w2) as [r w3] eqn:H3.
  rewrite (create_rolled_back _ _ _ _ _ _ _ _ _ _ H1 H2 H3). simpl.
  apply service_create_frame in H1 as (_ & Hc & _).
  apply identity_create_calls in H2 as (userData & Hc2).
  apply create_rollback_frame in H3 as (_ & Hc3 & _).
  exists [CreateUserCall userData]. rewrite Hc3, Hc2, Hc. eauto.
Qed.

(** A delete workflow logs at most one call, a [deleteUser]; it logs
    none unless both the fetch and the local delete succeeded. *)
Lemma orchestrator_delete_calls k id w :
  ∃ delta, new_calls w (snd (orchestrator_delete k id w)) delta ∧
           (delta = [] ∨ delta = [DeleteUserCall (ObjectId_toString id)]).
Proof.
  unfold new_calls.
  destruct (service_getById k id w) as [[snapshot|e] w1] eqn:H1.
  2: { rewrite (delete_fetch_failed _ _ _ _ _ H1). simpl.
       apply service_getById_frame in H1 as (_ & Hc & _).
       exists []. rewrite Hc, app_nil_r. auto. }
  destruct (service_delete k id w1) as [[[]|e] w2] eqn:H2.
  2: { rewrite (delete_local_failed _ _ _ _ _ _ _ H1 H2). simpl.
       apply service_getById_frame in H1 as (_ & Hc & _).
       apply service_delete_frame in H2 as (_ & Hc2 & _).
       exists []. rewrite Hc2, Hc, app_nil_r. auto. }
  destruct (Firebase_deleteUser (ObjectId_toString id) w2)
    as [[[]|e] w3] eqn:H3.
  { rewrite (delete_succeeded _ _ _ _ _ _ _ H1 H2 H3). simpl.
    apply service_getById_frame in H1 as (_ & Hc & _).
    apply service_delete_frame in H2 as (_ & Hc2 & _).
    apply Firebase_deleteUser_spec in H3 as (_ & Hc3).
    eexists. rewrite Hc3, Hc2, Hc. eauto. }
  destruct (delete_rollback k snapshot w3) as [r w4] eqn:H4.
  rewrite (delete_rolled_back _ _ _ _ _ _ _ _ _ _ H1 H2 H3 H4). simpl.
  apply service_getById_frame in H1 as (_ & Hc & _).
  apply service_delete_frame in H2 as (_ & Hc2 & _).
  apply Firebase_deleteUser_spec in H3 as (_ & Hc3).
  apply delete_rollback_frame in H4 as (_ & Hc4 & _).
  eexists. rewrite Hc4, Hc3, Hc2, Hc. eauto.
Qed.
End StepFrames.

(** ** Create workflows: rollback *)
Section CreateRollback.
Context {A : Type} {backend : AuthBackend A}.
Implicit Types w : World A.

Lemma create_identity_failed_outcome k data userId w r w' :
  create_identity_failed k data userId w r w' →
  orchestrator_create k data userId w =
    (match r with
     | Ok _ => Throw create_failed
     | Throw e' => Throw e'
     end, w').
Proof.
  intros (created & w1 & e & w2 & H1 & H2 & H3).
  by eapply create_rolled_back.
Qed.


(** For an Owner, the compensating call goes to [UserService], so the
    owner record that the workflow created stays, whatever the outcome
    of that call. *)
Lemma createOwner_rollback_keeps data userId w r w' :
  create_identity_failed KOwner data userId w r w' →
  is_Some (stored KOwner w' userId).
Proof.
  intros (created & w1 & e & w2 & H1 & H2 & H3). simpl in *.
  apply OwnerService_createOwner_spec in H1 as (_ & _ & id & Hid & _ & Ho1 & _).
  simpl in Hid. invert Hid.
  apply Firebase_createUser_spec in H2 as ((_ & Ho2 & _) & _).
  apply UserService_deleteUser_spec in H3 as (Ho3 & _).
  rewrite Ho3, Ho2, Ho1, lookup_insert_eq. eauto.
Qed.
End CreateRollback.

(** ** Delete workflows: rollback *)

(** The round trip of C2 as the claim states it fails on the creation
    timestamp.  Deleting Alice (created at 1000) while Firebase rejects
    the deletion: the local delete succeeds, the compensating recreation
    succeeds at time 5000, and the record that is back carries 5000 as
    its creation time, so it is not the record that was there. *)
Lemma delete_rollback_changes_createdAt :
  let w := Scenario.world Scenario.rejecting [] in
  let w' := snd (orchestrator_delete KUser Scenario.alice_id w) in
  (∃ restored,
     delete_identity_failed KUser Scenario.alice_id w (Ok restored) 5000 w') ∧
  stored KUser w Scenario.alice_id = Some Scenario.alice ∧
  UserDoc.createdAt <$> stored KUser w Scenario.alice_id = Some 1000 ∧
  UserDoc.createdAt <$> stored KUser w' Scenario.alice_id = Some 5000 ∧
  stored KUser w' Scenario.alice_id ≠ stored KUser w Scenario.alice_id.
Proof.
  split_and!; [| vm_compute; reflexivity .. | vm_compute; discriminate].
  eexists _, _, _, _, _, _. split_and!; vm_compute; reflexivity.
Qed.

(** C2, amended.  In a delete workflow (Owner or User) whose identity
    deletion fails after the local delete succeeded and whose
    compensating recreation succeeds, the workflow raises "Failed to
    delete user" and the record is stored again under the same id with
    the name, email, role (and owner reference) it had; its two
    timestamps are the clock reading [t] at the recreation. *)
Theorem delete_rollback_restores k {A} {backend : AuthBackend A}
    id (w : World A) restored t w' :
  delete_identity_failed k id w (Ok restored) t w' →
  orchestrator_delete k id w = (Throw delete_failed, w') ∧
  ∃ d, stored k w id = Some d ∧ stored k w' id = Some (restamped t d).
Proof.
  intros Hpath. split.
  - by rewrite (delete_identity_failed_outcome _ _ _ _ _ _ Hpath).
  - by eapply delete_rollback_stores.
Qed.

Lemma delete_rollback_restores_witness :
  let w := Scenario.world Scenario.rejecting [] in
  let w' := snd (orchestrator_delete KUser Scenario.alice_id w) in
  orchestrator_delete KUser Scenario.alice_id w = (Throw delete_failed, w') ∧
  ∃ d, stored KUser w Scenario.alice_id = Some d ∧
       stored KUser w' Scenario.alice_id = Some (restamped 5000 d).
Proof.
  eapply (delete_rollback_restores KUser).
  eexists _, _, _, _, _. split_and!; vm_compute; reflexivity.
Defined.

(** C6.  In a delete workflow (Owner or User) whose identity deletion
    fails after the local delete succeeded, the workflow raises an
    internal error whose message tells the outcome [r] of the
    compensating recreation: the data-inconsistency message exactly
    when the recreation failed, the plain "Failed to delete user"
    exactly when it succeeded. *)
Theorem delete_inconsistency_is_distinguished k {A} {backend : AuthBackend A}
    id (w : World A) r t w' :
  delete_identity_failed k id w r t w' →
  ∃ message,
    orchestrator_delete k id w =
      (Throw (ApiError httpStatus.INTERNAL_SERVER_ERROR message), w') ∧
    (message =
       "Failed to delete user and rollback failed. Data inconsistency detected."
     ↔ ∃ e, r = Throw e) ∧
    (message = "Failed to delete user" ↔ ∃ restored, r = Ok restored).
Proof.
  intros Hpath.
  rewrite (delete_identity_failed_outcome _ _ _ _ _ _ Hpath).
  destruct r as [restored|e]; eexists; (split; [reflexivity |]).
  - split; split; try done; [| by eauto]. by intros [e He].
  - split; split; try done; [by eauto |]. by intros [a Ha].
Qed.

Lemma delete_inconsistency_is_distinguished_witness :
  let w := Scenario.world Scenario.rejecting [None; None; Some "connection lost"] in
  let w' := snd (orchestrator_delete KUser Scenario.alice_id w) in
  ∃ message,
    orchestrator_delete KUser Scenario.alice_id w =
      (Throw (ApiError httpStatus.INTERNAL_SERVER_ERROR message), w') ∧
    (message =
       "Failed to delete user and rollback failed. Data inconsistency detected."
     ↔ ∃ e, Throw (A:=IUser.t) (MongoError "connection lost") = Throw e) ∧
    (message = "Failed to delete user"
     ↔ ∃ restored,
         Throw (A:=IUser.t) (MongoError "connection lost") = Ok restored).
Proof.
  apply (delete_inconsistency_is_distinguished KUser Scenario.alice_id
           _ (Throw (MongoError "connection lost")) 5000).
  eexists _, _, _, _, _. split_and!; vm_compute; reflexivity.
Defined.

(** ** Create workflows: duplicates and the returned record *)

(** C7.  A create attempt (Owner or User) whose email is already in use
    by a stored record of the same kind makes no call to the Firebase
    plugin at all: the log of calls is unchanged, so it holds as many
    [createUser] calls as before. *)
Theorem duplicate_email_makes_no_identity_call k {A} {backend : AuthBackend A}
    (data : CreateData k) userId (w : World A) :
  email_in_use k w (data_email data) →
  let w' := snd (orchestrator_create k data userId w) in
  calls w' = calls w ∧
  count_calls is_createUser (calls w') = count_calls is_createUser (calls w).
Proof.
  intros Hused w'.
  assert (calls w' = calls w) as Hsame; [| by rewrite Hsame].
  subst w'.
  destruct (service_create k data userId w) as [[created|e] w1] eqn:H1.
  - exfalso. destruct k; simpl in *.
    + by apply UserService_createUser_in_use in H1 as [e He].
    + by apply OwnerService_createOwner_in_use in H1 as [e He].
  - rewrite (create_local_failed _ _ _ _ _ _ H1). simpl.
    by apply service_create_frame in H1 as (_ & Hc & _).
Qed.

Lemma duplicate_email_makes_no_identity_call_witness :
  let w := Scenario.world [] [] in
  let w' := snd (orchestrator_create KUser Scenario.impostor Scenario.fresh_id w) in
  calls w' = calls w ∧
  count_calls is_createUser (calls w') = count_calls is_createUser (calls w).
Proof.
  apply (duplicate_email_makes_no_identity_call KUser Scenario.impostor).
  exists Scenario.alice_id, Scenario.alice. split; vm_compute; reflexivity.
Defined.

(** C8.  The record that a successful create workflow (Owner or User)
    returns has no [password] property, whatever password the input
    carried. *)
Theorem created_record_has_no_password k {A} {backend : AuthBackend A}
    (data : CreateData k) userId (w : World A) created w' :
  orchestrator_create k data userId w = (Ok created, w') →
  "password" ∉ account_keys created.
Proof.
  intros Hrun.
  destruct (service_create k data userId w) as [[c|e] w1] eqn:H1.
  2: { by rewrite (create_local_failed _ _ _ _ _ _ H1) in Hrun. }
  destruct (identity_create k data userId w1) as [[[]|e] w2] eqn:H2.
  2: { destruct (create_rollback k userId w2) as [r w3] eqn:H3.
       rewrite (create_rolled_back _ _ _ _ _ _ _ _ _ _ H1 H2 H3) in Hrun.
       by destruct r. }
  rewrite (create_succeeded _ _ _ _ _ _ _ H1 H2) in Hrun. invert Hrun.
  destruct k; simpl in *.
  - apply UserService_createUser_spec in H1 as (_ & _ & id & _ & _ & _ & ->).
    intros Hin. simpl in Hin.
    repeat (apply elem_of_cons in Hin as [Hin|Hin]; [discriminate Hin |]).
    by apply elem_of_nil in Hin.
  - apply OwnerService_createOwner_spec in H1 as (_ & _ & id & _ & _ & _ & ->).
    intros Hin. simpl in Hin.
    repeat (apply elem_of_cons in Hin as [Hin|Hin]; [discriminate Hin |]).
    by apply elem_of_nil in Hin.
Qed.

Lemma created_record_has_no_password_witness :
  IUser.password Scenario.bob = Some "SecurePass123!" ∧
  "password" ∉ account_keys (k:=KUser)
    (UserDoc.toObject (Scenario.fresh_id, UserDoc.build Scenario.bob 5000)).
Proof.
  split; [reflexivity |].
  eapply (created_record_has_no_password KUser Scenario.bob Scenario.fresh_id
            (Scenario.world [] [])).
  vm_compute. reflexivity.
Defined.

(** ** Errors that reach the caller *)

(** C3.  Creating a user with Alice's email: [UserService.createUser]
    rejects with Conflict (409) before any Firebase call and nothing is
    rolled back, but what the workflow raises is "Failed to create user"
    (500), not the Conflict.  The same happens when an owner is
    registered twice with one email. *)
Theorem create_conflict_is_replaced :
  let w := Scenario.world [] [] in
  let conflict := ApiError httpStatus.CONFLICT "User with this email already exists" in
  service_create KUser Scenario.impostor Scenario.fresh_id w = (Throw conflict, w) ∧
  orchestrator_create KUser Scenario.impostor Scenario.fresh_id w
    = (Throw create_failed, w) ∧
  let w1 := snd (orchestrator_create KOwner Scenario.john Scenario.fresh_id w) in
  stored KOwner w1 Scenario.fresh_id = Some Scenario.john_doc ∧
  service_create KOwner Scenario.john Scenario.owner_ref w1 = (Throw conflict, w1) ∧
  orchestrator_create KOwner Scenario.john Scenario.owner_ref w1
    = (Throw create_failed, w1) ∧
  create_failed ≠ conflict.
Proof. cbv zeta. split_and!; try (vm_compute; reflexivity). discriminate. Qed.

(** C4.  Deleting an account whose id is not stored: the fetch rejects
    with NotFound (404) and no call reaches the Firebase plugin, but
    what the workflow raises is "Failed to delete user" (500), not the
    NotFound; over HTTP the user route answers 500. *)
Theorem delete_not_found_is_replaced :
  let w := Scenario.world [] [] in
  let not_found := ApiError httpStatus.NOT_FOUND "User not found" in
  service_getById KUser Scenario.fresh_id w = (Throw not_found, w) ∧
  orchestrator_delete KUser Scenario.fresh_id w = (Throw delete_failed, w) ∧
  service_getById KOwner Scenario.fresh_id w = (Throw not_found, w) ∧
  orchestrator_delete KOwner Scenario.fresh_id w = (Throw delete_failed, w) ∧
  calls w = [] ∧
  delete_failed ≠ not_found ∧
  fst (UserRoutes_delete Scenario.fresh_id w)
    = Ok (mkResponse httpStatus.INTERNAL_SERVER_ERROR
            (ErrorBody "Failed to delete user")).
Proof. cbv zeta. split_and!; try (vm_compute; reflexivity). discriminate. Qed.

(** C5.  Registering an owner under a fresh id with Firebase rejecting
    the creation: the compensating call is [UserService.deleteUser],
    which finds no user with that id, and its NotFound (404) is what the
    workflow raises; the owner record stays.  For a user, a compensating
    delete that the database rejects lets the database error out of the
    workflow. *)
Theorem create_rollback_failure_escapes :
  let not_found := ApiError httpStatus.NOT_FOUND "User not found" in
  let w := Scenario.world Scenario.rejecting [] in
  let w' := snd (orchestrator_create KOwner Scenario.john Scenario.fresh_id w) in
  create_identity_failed KOwner Scenario.john Scenario.fresh_id w (Throw not_found) w' ∧
  orchestrator_create KOwner Scenario.john Scenario.fresh_id w = (Throw not_found, w') ∧
  stored KOwner w' Scenario.fresh_id = Some Scenario.john_doc ∧
  not_found ≠ create_failed ∧
  let lost := MongoError "connection lost" in
  let v := Scenario.world Scenario.rejecting [None; None; Some "connection lost"] in
  let v' := snd (orchestrator_create KUser Scenario.bob Scenario.fresh_id v) in
  create_identity_failed KUser Scenario.bob Scenario.fresh_id v (Throw lost) v' ∧
  orchestrator_create KUser Scenario.bob Scenario.fresh_id v = (Throw lost, v') ∧
  lost ≠ create_failed.
Proof.
  cbv zeta. split_and!; try (vm_compute; reflexivity); try discriminate.
  - eexists _, _, _, _. split_and!; vm_compute; reflexivity.
  - eexists _, _, _, _. split_and!; vm_compute; reflexivity.
Qed.

(** ** The owner-deletion endpoint *)

(** C9.  [DELETE /owner/:id] with a well-formed id starts
    [UserOrchestrator.deleteOwner] and answers 204 No Content with an
    empty body, whatever the workflow does: its result or rejection
    never reaches the response. *)
Theorem owner_delete_always_answers_204 {A} {backend : AuthBackend A}
    (params_id : string) (w : World A) :
  isMongoId params_id = true →
  fst (OwnerRoutes_delete params_id w)
    = Ok (mkResponse httpStatus.NO_CONTENT EmptyBody) ∧
  snd (OwnerRoutes_delete params_id w)
    = snd (UserOrchestrator_deleteOwner (ObjectId_fromString params_id) w).
Proof.
  intros Hvalid.
  unfold OwnerRoutes_delete, validate_id_param. rewrite Hvalid.
  unfold catchAsync, OwnerController_delete. prog_unfold. simpl.
  by destruct (UserOrchestrator_deleteOwner _ w).
Qed.

Lemma owner_delete_always_answers_204_witness :
  let w := Scenario.world [] [] in
  fst (UserOrchestrator_deleteOwner Scenario.fresh_id w) = Throw delete_failed ∧
  fst (OwnerRoutes_delete Scenario.fresh_id w)
    = Ok (mkResponse httpStatus.NO_CONTENT EmptyBody) ∧
  snd (OwnerRoutes_delete Scenario.fresh_id w)
    = snd (UserOrchestrator_deleteOwner
             (ObjectId_fromString Scenario.fresh_id) w).
Proof.
  split; [vm_compute; reflexivity |].
  apply (owner_delete_always_answers_204 Scenario.fresh_id).
  vm_compute. reflexivity.
Defined.

(** ** Custom claims *)
Section CustomClaims.
Context {A : Type} {backend : AuthBackend A}.
Implicit Types w : World A.

Lemma count_calls_app p (l1 l2 : list FirebaseCall) :
  count_calls p (l1 ++ l2) = (count_calls p l1 + count_calls p l2)%nat.
Proof. unfold count_calls. by rewrite filter_app, length_app. Qed.

Lemma UserService_updateUserRole_frame id role w r w' :
  UserService_updateUserRole id role w = (r, w') →
  owners w' = owners w ∧ mongo_frame w w'.
Proof.
  unfold UserService_updateUserRole, User_findByIdAndUpdate_role, mongo_frame.
  intros H. prog_inv; simpl; split_and!; congruence.
Qed.

Lemma run_workflow_calls wf w :
  ∃ delta, new_calls w (run_workflow wf w) delta ∧
           count_calls is_setCustomClaims delta = 0%nat.
Proof.
  destruct wf as [data userId|data userId|id|id]; simpl.
  - destruct (orchestrator_create_calls KUser data userId w)
      as (delta & Hnew & [->|[userData ->]]); eauto.
  - destruct (orchestrator_create_calls KOwner data userId w)
      as (delta & Hnew & [->|[userData ->]]); eauto.
  - destruct (orchestrator_delete_calls KUser id w)
      as (delta & Hnew & [->| ->]); eauto.
  - destruct (orchestrator_delete_calls KOwner id w)
      as (delta & Hnew & [->| ->]); eauto.
Qed.
End CustomClaims.

(** C10.  No orchestrator workflow (create or delete, Owner or User)
    calls [setCustomClaims]: the log holds as many such calls after the
    run as before.  A role update, in the service and in its HTTP
    handler, makes no call to the Firebase plugin and leaves the
    Firebase service as it was. *)
Theorem no_workflow_sets_custom_claims {A} {backend : AuthBackend A}
    (w : World A) :
  (∀ wf, count_calls is_setCustomClaims (calls (run_workflow wf w))
         = count_calls is_setCustomClaims (calls w)) ∧
  (∀ id role,
     let w' := snd (UserService_updateUserRole id role w) in
     calls w' = calls w ∧ auth w' = auth w) ∧
  (∀ params_id role,
     let w' := snd (UserController_updateRole params_id role w) in
     calls w' = calls w ∧ auth w' = auth w).
Proof.
  split_and!.
  - intros wf. destruct (run_workflow_calls wf w) as (delta & Hnew & Hzero).
    rewrite Hnew, count_calls_app, Hzero. lia.
  - intros id role w'. subst w'.
    destruct (UserService_updateUserRole id role w) as [r w1] eqn:Hrun.
    by apply UserService_updateUserRole_frame in Hrun as (_ & ? & ? & _).
  - intros params_id role w'. subst w'.
    unfold UserController_updateRole. prog_unfold.
    destruct (UserService_updateUserRole _ role w) as [[u|e] w1] eqn:Hrun;
      by apply UserService_updateUserRole_frame in Hrun as (_ & ? & ? & _).
Qed.


(** ** The end-to-end tests of the repository, on their own test double *)

(** [user.post.routes.test.ts], 'should return 409 when email already
    exists': the first request is answered 201; the second one, with
    the same email, is answered 500 and not 409. *)
Example test_duplicate_user_email_answers_500 :
  let w := Scenario.test_world in
  let first := catchAsync (UserController_create Scenario.bob Scenario.fresh_id) w in
  let second :=
    catchAsync (UserController_create Scenario.bob Scenario.alice_id) (snd first) in
  fst first
    = Ok (mkResponse httpStatus.CREATED
            (UserBody (UserDoc.toObject
                         (Scenario.fresh_id, UserDoc.build Scenario.bob 5000)))) ∧
  fst second
    = Ok (mkResponse httpStatus.INTERNAL_SERVER_ERROR
            (ErrorBody "Failed to create user")) ∧
  count_calls is_createUser (calls (snd second)) = 1%nat.
Proof. cbv zeta. split_and!; vm_compute; reflexivity. Qed.

(** [register.routes.test.ts], 'should return 409 when email already
    exists', on the handler of [POST /register]. *)
Example test_duplicate_owner_email_answers_500 :
  let w := Scenario.test_world in
  let first := catchAsync (OwnerController_create Scenario.john Scenario.fresh_id) w in
  let second :=
    catchAsync (OwnerController_create Scenario.john Scenario.alice_id) (snd first) in
  fst first
    = Ok (mkResponse httpStatus.CREATED
            (OwnerBody (OwnerDoc.toObject (Scenario.fresh_id, Scenario.john_doc)))) ∧
  fst second
    = Ok (mkResponse httpStatus.INTERNAL_SERVER_ERROR
            (ErrorBody "Failed to create user")).
Proof. cbv zeta. split_and!; vm_compute; reflexivity. Qed.

(** [user.delete.routes.test.ts], 'should return 404 when user does not
    exist': the answer is 500. *)
Example test_delete_missing_user_answers_500 :
  fst (UserRoutes_delete Scenario.fresh_id Scenario.test_world)
    = Ok (mkResponse httpStatus.INTERNAL_SERVER_ERROR
            (ErrorBody "Failed to delete user")) ∧
  calls (snd (UserRoutes_delete Scenario.fresh_id Scenario.test_world)) = [].
Proof. split; vm_compute; reflexivity. Qed.

(** [owner.routes.test.ts], 'should delete owner by ID': 204, and with
    the mock the owner is gone. *)
Example test_delete_owner_answers_204 :
  let w := snd (OwnerController_create Scenario.john Scenario.fresh_id
                  Scenario.test_world) in
  fst (OwnerRoutes_delete Scenario.fresh_id w)
    = Ok (mkResponse httpStatus.NO_CONTENT EmptyBody) ∧
  stored KOwner (snd (OwnerRoutes_delete Scenario.fresh_id w)) Scenario.fresh_id
    = None.
Proof. cbv zeta. split; vm_compute; reflexivity. Qed.

(** * Further properties of the services *)

Section ServiceProperties.
Context {A : Type} {backend : AuthBackend A}.
Implicit Types w : World A.

(** A round trip that meets no fault goes through and changes nothing
    but the list of coming faults. *)
Lemma mongo_io_ok w :
  next_fault w = None →
  ∃ w1, mongo_io w = (Ok tt, w1) ∧
        users w1 = users w ∧ owners w1 = owners w ∧ mongo_frame w w1.
Proof.
  unfold next_fault, mongo_io, mongo_frame.
  destruct (mongo_faults w) as [|[msg|] rest]; intros Hn;
    try discriminate Hn; eexists; split_and!; done.
Qed.

Lemma mongo_io_fault w msg :
  next_fault w = Some msg →
  ∃ w1, mongo_io w = (Throw (MongoError msg), w1) ∧
        users w1 = users w ∧ owners w1 = owners w ∧ mongo_frame w w1.
Proof.
  unfold next_fault, mongo_io, mongo_frame.
  destruct (mongo_faults w) as [|[msg'|] rest]; intros Hn;
    try discriminate Hn; invert Hn; eexists; split_and!; done.
Qed.

Lemma getById_run k id w :
  next_fault w = None →
  ∃ w1, service_getById k id w =
          (match stored k w id with
           | Some d => Ok (to_account id d)
           | None => Throw not_found
           end, w1) ∧
        users w1 = users w ∧ owners w1 = owners w ∧ mongo_frame w w1.
Proof.
  intros Hn. destruct (mongo_io_ok w Hn) as (w1 & Hio & Hu & Ho & Hf).
  exists w1. split; [| done].
  destruct k; simpl;
    unfold UserService_getUserById, OwnerService_getOwnerById, Model_findById;
    prog_unfold; rewrite Hio; simpl; [rewrite Hu | rewrite Ho];
    by destruct (_ !! id).
Qed.

Lemma service_delete_result k id w r w1 :
  service_delete k id w = (r, w1) →
  next_fault w = None →
  r = match stored k w id with Some _ => Ok tt | None => Throw not_found end.
Proof.
  intros Hrun Hn. destruct (mongo_io_ok w Hn) as (w0 & Hio & Hu & Ho & Hf).
  destruct k; simpl in *;
    unfold UserService_deleteUser, OwnerService_deleteOwner,
      Model_findByIdAndDelete in Hrun;
    prog_unfold; rewrite Hio in Hrun; simpl in Hrun;
    [rewrite <- Hu | rewrite <- Ho];
    destruct (_ !! id); simpl in Hrun; by invert Hrun.
Qed.

Lemma service_delete_stored k id w r w1 :
  service_delete k id w = (r, w1) →
  users w1 = (match k, r with KUser, Ok _ => delete id (users w) | _, _ => users w end) ∧
  owners w1 = (match k, r with KOwner, Ok _ => delete id (owners w) | _, _ => owners w end).
Proof.
  destruct k; simpl; intros Hrun.
  - apply UserService_deleteUser_spec in Hrun as (Ho & _ & Hu).
    by destruct r.
  - apply OwnerService_deleteOwner_spec in Hrun as (Hu & _ & Ho).
    by destruct r.
Qed.

Lemma stored_after_delete k id w r w1 id' :
  service_delete k id w = (Ok r, w1) →
  stored k w1 id' = if decide (id = id') then None else stored k w id'.
Proof.
  intros Hrun. apply service_delete_stored in Hrun as (Hu & Ho).
  destruct k; simpl; [rewrite Hu | rewrite Ho]; apply lookup_delete.
Qed.
End ServiceProperties.

Section CreateRollbackGenerated.
Context {A : Type} {backend : AuthBackend A}.
Implicit Types w : World A.


End CreateRollbackGenerated.



(** X1.  A record that a service has just created is found under its id:
    [getUserById] / [getOwnerById], when its round trip meets no fault,
    returns the very object that [createUser] / [createOwner] returned. *)
Theorem created_account_is_found k {A} {backend : AuthBackend A}
    (input : Account k) (w : World A) created w' :
  service_insert k input w = (Ok created, w') →
  next_fault w' = None →
  ∃ id, account_id created = Some id ∧
        fst (service_getById k id w') = Ok created.
Proof.
  intros Hrun Hn. destruct k; simpl in Hrun.
  - apply UserService_createUser_spec in Hrun
      as (_ & _ & id & _ & _ & Hu & ->).
    exists id. split; [done |].
    destruct (getById_run KUser id w' Hn) as (w1 & -> & _). simpl.
    by rewrite Hu, lookup_insert_eq.
  - apply OwnerService_createOwner_spec in Hrun
      as (_ & _ & id & _ & _ & Ho & ->).
    exists id. split; [done |].
    destruct (getById_run KOwner id w' Hn) as (w1 & -> & _). simpl.
    by rewrite Ho, lookup_insert_eq.
Qed.

Lemma created_account_is_found_witness :
  ∃ id, account_id (k:=KUser)
          (UserDoc.toObject (Scenario.fresh_id,
                             UserDoc.build Fixture.bob_record 5000)) = Some id ∧
        fst (service_getById KUser id
               (snd (service_insert KUser Fixture.bob_record Fixture.calm)))
          = Ok (UserDoc.toObject (Scenario.fresh_id,
                                  UserDoc.build Fixture.bob_record 5000)).
Proof.
  apply (created_account_is_found KUser Fixture.bob_record Fixture.calm);
    vm_compute; reflexivity.
Defined.

(** X2.  Deleting through a service an id that is not stored, with no
    database fault, rejects with 404 "User not found" and leaves both
    collections as they were. *)
Theorem delete_missing_is_not_found k {A} {backend : AuthBackend A}
    id (w : World A) :
  stored k w id = None →
  next_fault w = None →
  fst (service_delete k id w) = Throw not_found ∧
  users (snd (service_delete k id w)) = users w ∧
  owners (snd (service_delete k id w)) = owners w.
Proof.
  intros Hnone Hn.
  destruct (service_delete k id w) as [r w1] eqn:Hrun. simpl.
  pose proof (service_delete_result _ _ _ _ _ Hrun Hn) as ->.
  apply service_delete_stored in Hrun. rewrite Hnone in *.
  by destruct k.
Qed.

Lemma delete_missing_is_not_found_witness :
  fst (service_delete KOwner Scenario.fresh_id Fixture.calm) = Throw not_found ∧
  users (snd (service_delete KOwner Scenario.fresh_id Fixture.calm))
    = users Fixture.calm ∧
  owners (snd (service_delete KOwner Scenario.fresh_id Fixture.calm))
    = owners Fixture.calm.
Proof.
  apply (delete_missing_is_not_found KOwner); vm_compute; reflexivity.
Defined.

(** X3.  After a service delete that succeeded, the record was stored
    before and is gone: fetching it and deleting it again (no database
    fault) both reject with 404; every other record of the collection is
    untouched. *)
Theorem deleted_account_is_gone k {A} {backend : AuthBackend A}
    id (w : World A) w1 :
  service_delete k id w = (Ok tt, w1) →
  next_fault w1 = None →
  fst (service_getById k id w1) = Throw not_found ∧
  fst (service_delete k id w1) = Throw not_found ∧
  ∀ id', id' ≠ id → stored k w1 id' = stored k w id'.
Proof.
  intros Hrun Hn.
  pose proof (stored_after_delete _ _ _ _ _ id Hrun) as Hgone.
  rewrite decide_True in Hgone by done.
  split_and!.
  - destruct (getById_run k id w1 Hn) as (w2 & -> & _). simpl.
    by rewrite Hgone.
  - destruct (service_delete k id w1) as [r w2] eqn:Hagain. simpl.
    rewrite (service_delete_result _ _ _ _ _ Hagain Hn). by rewrite Hgone.
  - intros id' Hne. rewrite (stored_after_delete _ _ _ _ _ id' Hrun).
    by rewrite decide_False.
Qed.

Lemma deleted_account_is_gone_witness :
  let w1 := snd (service_delete KUser Scenario.alice_id Fixture.calm) in
  fst (service_getById KUser Scenario.alice_id w1) = Throw not_found ∧
  fst (service_delete KUser Scenario.alice_id w1) = Throw not_found ∧
  ∀ id', id' ≠ Scenario.alice_id →
         stored KUser w1 id' = stored KUser Fixture.calm id'.
Proof.
  apply (deleted_account_is_gone KUser Scenario.alice_id Fixture.calm);
    vm_compute; reflexivity.
Defined.

(** X4.  [getAllUsers(ownerId)], when its round trip meets no fault,
    returns without repetition exactly the stored users whose [ownerId]
    is the one asked for (none gives the empty list), and leaves both
    collections as they were. *)
Theorem getAllUsers_lists_users_of_owner {A} {backend : AuthBackend A}
    ownerId (w : World A) :
  next_fault w = None →
  ∃ l w', UserService_getAllUsers ownerId w = (Ok l, w') ∧
          users w' = users w ∧ owners w' = owners w ∧
          NoDup l ∧
          ∀ u, u ∈ l ↔ ∃ id d, users w !! id = Some d ∧
                               UserDoc.ownerId d = ownerId ∧
                               u = UserDoc.toObject (id, d).
Proof.
  intros Hn. destruct (mongo_io_ok w Hn) as (w1 & Hio & Hu & Ho & Hf).
  unfold UserService_getAllUsers, User_find_ownerId. prog_unfold.
  rewrite Hio. simpl. rewrite Hu.
  eexists _, _. split; [reflexivity |]. split_and!; try done.
  - apply NoDup_fmap_2_strong.
    + intros [id1 d1] [id2 d2] H1 H2 Heq.
      apply list_elem_of_filter in H1 as [_ H1].
      apply list_elem_of_filter in H2 as [_ H2].
      apply elem_of_map_to_list in H1. apply elem_of_map_to_list in H2.
      invert Heq. congruence.
    + apply NoDup_filter, NoDup_map_to_list.
  - intros u. rewrite list_elem_of_fmap. split.
    + intros ([id d] & -> & Hin).
      apply list_elem_of_filter in Hin as [Hown Hin].
      apply elem_of_map_to_list in Hin. by exists id, d.
    + intros (id & d & Hin & Hown & ->). exists (id, d). split; [done |].
      apply list_elem_of_filter. split; [done |].
      by apply elem_of_map_to_list.
Qed.

Lemma getAllUsers_lists_users_of_owner_witness :
  ∃ l w', UserService_getAllUsers Scenario.owner_ref Fixture.calm = (Ok l, w') ∧
          users w' = users Fixture.calm ∧ owners w' = owners Fixture.calm ∧
          NoDup l ∧
          ∀ u, u ∈ l ↔ ∃ id d, users Fixture.calm !! id = Some d ∧
                               UserDoc.ownerId d = Scenario.owner_ref ∧
                               u = UserDoc.toObject (id, d).
Proof.
  apply (getAllUsers_lists_users_of_owner Scenario.owner_ref Fixture.calm).
  reflexivity.
Defined.

Section RoleUpdate.
Context {A : Type} {backend : AuthBackend A}.
Implicit Types w : World A.

Lemma updateUserRole_run id role w :
  next_fault w = None →
  ∃ w', UserService_updateUserRole id role w =
          (match users w !! id with
           | Some d => Ok (UserDoc.toObject (id, with_role role (now w) d))
           | None => Throw not_found
           end, w') ∧
        users w' = (match users w !! id with
                    | Some d => <[id := with_role role (now w) d]> (users w)
                    | None => users w
                    end) ∧
        owners w' = owners w ∧ mongo_frame w w'.
Proof.
  intros Hn. destruct (mongo_io_ok w Hn) as (w1 & Hio & Hu & Ho & Ha & Hc & Hnow).
  unfold UserService_updateUserRole, User_findByIdAndUpdate_role, mongo_frame.
  prog_unfold. rewrite Hio. simpl. rewrite Hu, Hnow.
  destruct (users w !! id) as [d|]; simpl; eexists; split_and!;
    try reflexivity; simpl; congruence.
Qed.
End RoleUpdate.

(** X5.  [updateUserRole(id, role)] on a stored user, with no database
    fault, returns and stores that user with the new role and a fresh
    [updatedAt]; its name, email, owner reference and [createdAt], every
    other user and the owners collection are untouched.  On an id that
    is not stored it rejects with 404 and changes nothing. *)
Theorem updateUserRole_changes_only_the_role {A} {backend : AuthBackend A}
    id role (w : World A) :
  next_fault w = None →
  let run := UserService_updateUserRole id role w in
  owners (snd run) = owners w ∧
  (∀ id', id' ≠ id → users (snd run) !! id' = users w !! id') ∧
  match users w !! id with
  | Some d =>
      fst run = Ok (UserDoc.toObject (id, with_role role (now w) d)) ∧
      users (snd run) !! id = Some (with_role role (now w) d)
  | None =>
      fst run = Throw not_found ∧ users (snd run) = users w
  end.
Proof.
  intros Hn run. subst run.
  destruct (updateUserRole_run id role w Hn) as (w' & -> & Hu & Ho & _).
  simpl. rewrite Hu. split; [done |].
  destruct (users w !! id) as [d|] eqn:Hd; split; try done.
  - intros id' Hne. by rewrite lookup_insert_ne.
  - split; [done |]. by rewrite lookup_insert_eq.
Qed.

Lemma updateUserRole_changes_only_the_role_witness :
  let run := UserService_updateUserRole Scenario.alice_id MANAGER Fixture.calm in
  owners (snd run) = owners Fixture.calm ∧
  (∀ id', id' ≠ Scenario.alice_id →
          users (snd run) !! id' = users Fixture.calm !! id') ∧
  match users Fixture.calm !! Scenario.alice_id with
  | Some d =>
      fst run = Ok (UserDoc.toObject
                      (Scenario.alice_id, with_role MANAGER (now Fixture.calm) d)) ∧
      users (snd run) !! Scenario.alice_id
        = Some (with_role MANAGER (now Fixture.calm) d)
  | None =>
      fst run = Throw not_found ∧ users (snd run) = users Fixture.calm
  end.
Proof.
  apply (updateUserRole_changes_only_the_role Scenario.alice_id MANAGER
           Fixture.calm).
  reflexivity.
Defined.

(** X6.  Two role updates of one user in a row, both successful: the
    stored user ends as if only the second had been made (the first
    leaves no trace; in particular EMPLOYEE, MANAGER, EMPLOYEE ends in
    EMPLOYEE), and the second call returns that user. *)
Theorem updateUserRole_last_write_wins {A} {backend : AuthBackend A}
    id r1 r2 (w : World A) d res1 w1 res2 w2 :
  users w !! id = Some d →
  UserService_updateUserRole id r1 w = (Ok res1, w1) →
  UserService_updateUserRole id r2 w1 = (Ok res2, w2) →
  users w2 !! id = Some (with_role r2 (now w1) d) ∧
  res2 = UserDoc.toObject (id, with_role r2 (now w1) d) ∧
  UserDoc.role <$> users w2 !! id = Some r2.
Proof.
  intros Hd H1 H2.
  assert (∀ (v : World A) r res v',
            UserService_updateUserRole id r v = (Ok res, v') →
            ∃ d0, users v !! id = Some d0 ∧
                  users v' = <[id := with_role r (now v) d0]> (users v) ∧
                  res = UserDoc.toObject (id, with_role r (now v) d0)) as Hstep.
  { intros v r res v' Hrun.
    unfold UserService_updateUserRole, User_findByIdAndUpdate_role in Hrun.
    prog_inv; simpl in *.
    match goal with
    | Hl : users _ !! id = Some ?t, Hu : users _ = users v,
      Hn : now _ = now v |- _ =>
        exists t; rewrite Hu in Hl |- *; rewrite Hn; by split_and!
    end. }
  apply Hstep in H1 as (d1 & Hd1 & Hu1 & _).
  apply Hstep in H2 as (d2 & Hd2 & Hu2 & ->).
  rewrite Hu1, lookup_insert_eq in Hd2. invert Hd2.
  rewrite Hd in Hd1. invert Hd1.
  rewrite Hu2, lookup_insert_eq. by split_and!.
Qed.

Lemma updateUserRole_last_write_wins_witness :
  let w1 := snd (UserService_updateUserRole Scenario.alice_id MANAGER Fixture.calm) in
  let run2 := UserService_updateUserRole Scenario.alice_id EMPLOYEE w1 in
  users (snd run2) !! Scenario.alice_id
    = Some (with_role EMPLOYEE (now w1) Scenario.alice) ∧
  UserDoc.toObject (Scenario.alice_id, with_role EMPLOYEE 5000 Scenario.alice)
    = UserDoc.toObject (Scenario.alice_id, with_role EMPLOYEE (now w1) Scenario.alice) ∧
  UserDoc.role <$> users (snd run2) !! Scenario.alice_id = Some EMPLOYEE.
Proof.
  eapply (updateUserRole_last_write_wins Scenario.alice_id MANAGER EMPLOYEE
            Fixture.calm Scenario.alice);
    vm_compute; reflexivity.
Defined.

(** * Invariants of the workflows *)

Section WorkflowInvariants.
Context {A : Type} {backend : AuthBackend A}.
Implicit Types w v : World A.

(** A property of the world that every step of a create workflow keeps
    is kept by the workflow. *)
Lemma orchestrator_create_keeps (P : World A → Prop) k data userId w :
  (∀ v r v', service_create k data userId v = (r, v') → P v → P v') →
  (∀ v r v', identity_create k data userId v = (r, v') → P v → P v') →
  (∀ v r v', create_rollback k userId v = (r, v') → P v → P v') →
  P w → P (snd (orchestrator_create k data userId w)).
Proof.
  intros Hcreate Hidentity Hrollback Hw.
  destruct (service_create k data userId w) as [[created|e] w1] eqn:H1.
  2: { rewrite (create_local_failed _ _ _ _ _ _ H1). simpl. eauto. }
  destruct (identity_create k data userId w1) as [[[]|e] w2] eqn:H2.
  { rewrite (create_succeeded _ _ _ _ _ _ _ H1 H2). simpl. eauto. }
  destruct (create_rollback k userId w2) as [r w3] eqn:H3.
  rewrite (create_rolled_back _ _ _ _ _ _ _ _ _ _ H1 H2 H3). simpl. eauto.
Qed.

(** The same for a delete workflow. *)
Lemma orchestrator_delete_keeps (P : World A → Prop) k id w :
  (∀ v r v', service_getById k id v = (r, v') → P v → P v') →
  (∀ v r v', service_delete k id v = (r, v') → P v → P v') →
  (∀ v r v', Firebase_deleteUser (ObjectId_toString id) v = (r, v') →
             P v → P v') →
  (∀ snapshot v r v', delete_rollback k snapshot v = (r, v') → P v → P v') →
  P w → P (snd (orchestrator_delete k id w)).
Proof.
  intros Hfetch Hdelete Hidentity Hrollback Hw.
  destruct (service_getById k id w) as [[snapshot|e] w1] eqn:H1.
  2: { rewrite (delete_fetch_failed _ _ _ _ _ H1). simpl. eauto. }
  destruct (service_delete k id w1) as [[[]|e] w2] eqn:H2.
  2: { rewrite (delete_local_failed _ _ _ _ _ _ _ H1 H2). simpl. eauto. }
  destruct (Firebase_deleteUser (ObjectId_toString id) w2)
    as [[[]|e] w3] eqn:H3.
  { rewrite (delete_succeeded _ _ _ _ _ _ _ H1 H2 H3). simpl. eauto. }
  destruct (delete_rollback k snapshot w3) as [r w4] eqn:H4.
  rewrite (delete_rolled_back _ _ _ _ _ _ _ _ _ _ H1 H2 H3 H4). simpl. eauto 6.
Qed.

Lemma emails_unique_shrinks k w w' :
  (∀ id d, stored k w' id = Some d → stored k w id = Some d) →
  emails_unique k w → emails_unique k w'.
Proof.
  intros Hsub Huniq id1 id2 d1 d2 H1 H2. eapply Huniq; eauto.
Qed.

Lemma emails_unique_same k w w' :
  users w' = users w → owners w' = owners w →
  emails_unique k w → emails_unique k w'.
Proof.
  intros Hu Ho. apply emails_unique_shrinks. intros id d.
  destruct k; simpl; congruence.
Qed.

Lemma emails_unique_grows k w w' id (d : Stored k) :
  (∀ id', stored k w' id' = if decide (id = id') then Some d else stored k w id') →
  (∀ id' d', stored k w id' = Some d' → stored_email d' ≠ stored_email d) →
  emails_unique k w → emails_unique k w'.
Proof.
  intros Hins Hfresh Huniq id1 id2 d1 d2 H1 H2 Hmail.
  rewrite Hins in H1, H2.
  destruct (decide (id = id1)) as [<-|], (decide (id = id2)) as [<-|];
    simplify_eq; try done.
  - by destruct (Hfresh _ _ H2).
  - by destruct (Hfresh _ _ H1).
  - eapply Huniq; eauto.
Qed.

(** A service create that succeeds found no stored document with the
    email of the new one. *)
Lemma UserService_createUser_fresh_email user w created w' :
  UserService_createUser user w = (Ok created, w') →
  ∀ id d, users w !! id = Some d → UserDoc.email d ≠ IUser.email user.
Proof.
  unfold UserService_createUser, Model_findOne_email.
  intros Hrun id d Hin. prog_inv.
  match goal with
  | Hmiss : present (snd <$> list_find ?P ?l) = false |- _ =>
      destruct (list_find P l) eqn:Hfind; [discriminate Hmiss |];
      apply (findOne_miss _ _ _ id d) in Hfind; [done | simpl; congruence]
  end.
Qed.

Lemma OwnerService_createOwner_fresh_email owner w created w' :
  OwnerService_createOwner owner w = (Ok created, w') →
  ∀ id d, owners w !! id = Some d → OwnerDoc.email d ≠ IOwner.email owner.
Proof.
  unfold OwnerService_createOwner, Model_findOne_email.
  intros Hrun id d Hin. prog_inv.
  match goal with
  | Hmiss : present (snd <$> list_find ?P ?l) = false |- _ =>
      destruct (list_find P l) eqn:Hfind; [discriminate Hmiss |];
      apply (findOne_miss _ _ _ id d) in Hfind; [done | simpl; congruence]
  end.
Qed.

Lemma emails_unique_createUser k user w r w' :
  UserService_createUser user w = (r, w') →
  emails_unique k w → emails_unique k w'.
Proof.
  intros Hrun.
  pose proof (UserService_createUser_spec _ _ _ _ Hrun) as (Ho & _ & Hu).
  destruct r as [created|e]; [| by apply emails_unique_same].
  destruct Hu as (id & _ & _ & Hu & _).
  destruct k; [| by apply emails_unique_shrinks; simpl; congruence].
  apply (emails_unique_grows KUser w w' id (UserDoc.build user (now w))).
  - intros id'. simpl. rewrite Hu. apply lookup_insert.
  - simpl. by eapply UserService_createUser_fresh_email.
Qed.

Lemma emails_unique_createOwner k owner w r w' :
  OwnerService_createOwner owner w = (r, w') →
  emails_unique k w → emails_unique k w'.
Proof.
  intros Hrun.
  pose proof (OwnerService_createOwner_spec _ _ _ _ Hrun) as (Hu & _ & Ho).
  destruct r as [created|e]; [| by apply emails_unique_same].
  destruct Ho as (id & _ & _ & Ho & _).
  destruct k; [by apply emails_unique_shrinks; simpl; congruence |].
  apply (emails_unique_grows KOwner w w' id (OwnerDoc.build owner (now w))).
  - intros id'. simpl. rewrite Ho. apply lookup_insert.
  - simpl. by eapply OwnerService_createOwner_fresh_email.
Qed.

Lemma emails_unique_delete k k' id w r w' :
  service_delete k' id w = (r, w') →
  emails_unique k w → emails_unique k w'.
Proof.
  intros Hrun. apply service_delete_stored in Hrun as (Hu & Ho).
  apply emails_unique_shrinks. intros id0 d.
  destruct k, k', r; simpl; rewrite ?Hu, ?Ho; try done;
    rewrite lookup_delete; by case_decide.
Qed.

Lemma emails_unique_firebase k w w' :
  firebase_frame w w' → emails_unique k w → emails_unique k w'.
Proof. intros (Hu & Ho & _). by apply emails_unique_same. Qed.

Lemma updateUserRole_stored id role w r w' :
  UserService_updateUserRole id role w = (r, w') →
  owners w' = owners w ∧
  (users w' = users w ∨
   ∃ d, users w !! id = Some d ∧
        users w' = <[id := with_role role (now w) d]> (users w)).
Proof.
  unfold UserService_updateUserRole, User_findByIdAndUpdate_role.
  prog_unfold.
  destruct (mongo_io w) as [[[]|e] w1] eqn:Hio;
    apply mongo_io_spec in Hio as (Hu & Ho & _ & _ & Hn); simpl; intros H.
  - destruct (users w1 !! id) as [d|] eqn:Hd; invert H; simpl;
      (split; [done |]); [right | by left].
    exists d. rewrite <- Hu, <- Hn. by split.
  - invert H. split; [done | by left].
Qed.

Lemma emails_unique_updateUserRole k id role w r w' :
  UserService_updateUserRole id role w = (r, w') →
  emails_unique k w → emails_unique k w'.
Proof.
  intros Hrun Huniq.
  apply updateUserRole_stored in Hrun as (Ho & [Hu | (d & Hd & Hu)]).
  { by apply (emails_unique_same k w). }
  destruct k; [| by apply (emails_unique_shrinks KOwner w); simpl;
                    [congruence | done]].
  intros id1 id2 d1 d2. simpl. rewrite Hu, !lookup_insert.
  intros H1 H2 Hmail.
  destruct (decide (id = id1)) as [<-|], (decide (id = id2)) as [<-|];
    simplify_eq; simpl in *; try done.
  - by apply (Huniq id id2 d d2).
  - by apply (Huniq id1 id d1 d).
  - by apply (Huniq id1 id2 d1 d2).
Qed.
End WorkflowInvariants.

(** X7.  Email uniqueness is an invariant: if no two stored users (or
    no two stored owners) share an email, the same holds after any
    orchestrator workflow and after any role update, whatever the
    Firebase service and the database faults do. *)
Theorem emails_stay_unique k {A} {backend : AuthBackend A} (w : World A) :
  emails_unique k w →
  (∀ wf, emails_unique k (run_workflow wf w)) ∧
  (∀ id role, emails_unique k (snd (UserService_updateUserRole id role w))).
Proof.
  intros Huniq. split.
  - intros [data userId|data userId|id|id]; simpl.
    + apply (orchestrator_create_keeps (emails_unique k) KUser); simpl;
        eauto using emails_unique_createUser.
      * intros v r v' Hrun. apply Firebase_createUser_spec in Hrun as [Hf _].
        by apply emails_unique_firebase.
      * intros v r v'. apply (emails_unique_delete k KUser).
    + apply (orchestrator_create_keeps (emails_unique k) KOwner); simpl;
        eauto using emails_unique_createOwner.
      * intros v r v' Hrun. apply Firebase_createUser_spec in Hrun as [Hf _].
        by apply emails_unique_firebase.
      * intros v r v'. apply (emails_unique_delete k KUser).
    + apply (orchestrator_delete_keeps (emails_unique k) KUser); simpl;
        eauto using emails_unique_createUser.
      * intros v r v' Hrun.
        apply UserService_getUserById_spec in Hrun as (Hu & Ho & _).
        by apply emails_unique_same.
      * intros v r v'. apply (emails_unique_delete k KUser).
      * intros v r v' Hrun. apply Firebase_deleteUser_spec in Hrun as [Hf _].
        by apply emails_unique_firebase.
    + apply (orchestrator_delete_keeps (emails_unique k) KOwner); simpl;
        eauto using emails_unique_createOwner.
      * intros v r v' Hrun.
        apply OwnerService_getOwnerById_spec in Hrun as (Hu & Ho & _).
        by apply emails_unique_same.
      * intros v r v'. apply (emails_unique_delete k KOwner).
      * intros v r v' Hrun. apply Firebase_deleteUser_spec in Hrun as [Hf _].
        by apply emails_unique_firebase.
  - intros id role.
    destruct (UserService_updateUserRole id role w) as [r w'] eqn:Hrun.
    by eapply emails_unique_updateUserRole.
Qed.

Lemma emails_stay_unique_witness :
  (∀ wf, emails_unique KUser (run_workflow wf Fixture.calm)) ∧
  (∀ id role,
     emails_unique KUser (snd (UserService_updateUserRole id role Fixture.calm))).
Proof.
  apply (emails_stay_unique KUser Fixture.calm).
  intros id1 id2 d1 d2 H1 H2 _.
  change (({[ Scenario.alice_id := Scenario.alice ]} : gmap string UserDoc.t)
            !! id1 = Some d1) in H1.
  change (({[ Scenario.alice_id := Scenario.alice ]} : gmap string UserDoc.t)
            !! id2 = Some d2) in H2.
  apply lookup_singleton_Some in H1 as [<- _].
  by apply lookup_singleton_Some in H2 as [<- _].
Defined.

(** * Outcomes of the workflows *)

Section WorkflowOutcomes.
Context {A : Type} {backend : AuthBackend A}.
Implicit Types w v : World A.

(** The four ways a delete workflow can go. *)
Lemma orchestrator_delete_cases k id w :
  (∃ e w', service_getById k id w = (Throw e, w') ∧
           orchestrator_delete k id w = (Throw delete_failed, w')) ∨
  (∃ snapshot w1 e w', service_getById k id w = (Ok snapshot, w1) ∧
                       service_delete k id w1 = (Throw e, w') ∧
                       orchestrator_delete k id w = (Throw delete_failed, w')) ∨
  (∃ snapshot w1 w2 w', service_getById k id w = (Ok snapshot, w1) ∧
                        service_delete k id w1 = (Ok tt, w2) ∧
                        Firebase_deleteUser (ObjectId_toString id) w2 = (Ok tt, w') ∧
                        orchestrator_delete k id w = (Ok tt, w')) ∨
  (∃ r t w', delete_identity_failed k id w r t w' ∧
             orchestrator_delete k id w =
               (match r with
                | Ok _ => Throw delete_failed
                | Throw _ => Throw delete_inconsistent
                end, w')).
Proof.
  destruct (service_getById k id w) as [[snapshot|e] w1] eqn:H1.
  2: { left. eauto using delete_fetch_failed. }
  destruct (service_delete k id w1) as [[[]|e] w2] eqn:H2.
  2: { right; left. eauto 8 using delete_local_failed. }
  destruct (Firebase_deleteUser (ObjectId_toString id) w2)
    as [[[]|e] w3] eqn:H3.
  { right; right; left. eauto 10 using delete_succeeded. }
  destruct (delete_rollback k snapshot w3) as [r w4] eqn:H4.
  right; right; right. exists r, (now w3), w4. split.
  - by exists snapshot, w1, w2, e, w3.
  - by eapply delete_rolled_back.
Qed.

(** The ways a create workflow can go. *)
Lemma orchestrator_create_cases k data userId w :
  (∃ e w', service_create k data userId w = (Throw e, w') ∧
           orchestrator_create k data userId w = (Throw create_failed, w')) ∨
  (∃ created w1 w', service_create k data userId w = (Ok created, w1) ∧
                    identity_create k data userId w1 = (Ok tt, w') ∧
                    orchestrator_create k data userId w = (Ok created, w')) ∨
  (∃ r w', create_identity_failed k data userId w r w' ∧
           orchestrator_create k data userId w =
             (match r with
              | Ok _ => Throw create_failed
              | Throw e' => Throw e'
              end, w')).
Proof.
  destruct (service_create k data userId w) as [[created|e] w1] eqn:H1.
  2: { left. eauto using create_local_failed. }
  destruct (identity_create k data userId w1) as [[[]|e] w2] eqn:H2.
  { right; left. eauto 8 using create_succeeded. }
  destruct (create_rollback k userId w2) as [r w3] eqn:H3.
  right; right. exists r, w3. split.
  - by exists created, w1, e, w2.
  - by eapply create_rolled_back.
Qed.

(** What the steps of a workflow do to the stored records. *)
Lemma service_getById_stored k id w r w' :
  service_getById k id w = (r, w') →
  users w' = users w ∧ owners w' = owners w ∧
  ∀ snapshot, r = Ok snapshot →
              ∃ d, stored k w id = Some d ∧ snapshot = to_account id d.
Proof.
  destruct k; simpl; intros H.
  - by apply UserService_getUserById_spec in H as (? & ? & _ & ?).
  - by apply OwnerService_getOwnerById_spec in H as (? & ? & _ & ?).
Qed.

Lemma stored_same k w w' :
  users w' = users w → owners w' = owners w →
  ∀ id, stored k w' id = stored k w id.
Proof. intros Hu Ho id. destruct k; simpl; congruence. Qed.

Lemma service_create_stored k data userId w r w' :
  service_create k data userId w = (r, w') →
  (∀ id, stored (other k) w' id = stored (other k) w id) ∧
  match r with
  | Ok created =>
      stored k w userId = None ∧
      created = to_account userId (new_document (now w) data) ∧
      ∀ id, stored k w' id =
            if decide (userId = id) then Some (new_document (now w) data)
            else stored k w id
  | Throw _ => ∀ id, stored k w' id = stored k w id
  end.
Proof.
  destruct k; simpl; intros H.
  - apply UserService_createUser_spec in H as (Ho & _ & Hu).
    split; [congruence |]. destruct r as [created|e]; [| congruence].
    destruct Hu as (id & Hid & Hfree & Hu & ->). simpl in Hid. invert Hid.
    split_and!; [done | done |].
    intros id'. rewrite Hu. apply lookup_insert.
  - apply OwnerService_createOwner_spec in H as (Hu & _ & Ho).
    split; [congruence |]. destruct r as [created|e]; [| congruence].
    destruct Ho as (id & Hid & Hfree & Ho & ->). simpl in Hid. invert Hid.
    split_and!; [done | done |].
    intros id'. rewrite Ho. apply lookup_insert.
Qed.
End WorkflowOutcomes.

(** X8.  A delete workflow (Owner or User) that returns normally has
    removed exactly the record with the given id, which was stored
    before, has left the other collection alone, and has logged one call
    to the Firebase plugin: [deleteUser] with the id as uid. *)
Theorem delete_workflow_success k {A} {backend : AuthBackend A}
    id (w : World A) w' :
  orchestrator_delete k id w = (Ok tt, w') →
  is_Some (stored k w id) ∧
  (∀ id', stored k w' id' = if decide (id = id') then None else stored k w id') ∧
  (∀ id', stored (other k) w' id' = stored (other k) w id') ∧
  calls w' = (calls w ++ [DeleteUserCall (ObjectId_toString id)])%list.
Proof.
  intros Hrun.
  destruct (orchestrator_delete_cases k id w)
    as [(e & v & _ & Hv) | [(s & w1 & e & v & _ & _ & Hv)
       | [(s & w1 & w2 & v & H1 & H2 & H3 & Hv) | (r & t & v & _ & Hv)]]];
    rewrite Hv in Hrun; try discriminate Hrun; [| by destruct r].
  invert Hrun.
  pose proof (service_getById_frame _ _ _ _ _ H1) as (_ & Hc1 & _).
  apply service_getById_stored in H1 as (Hu1 & Ho1 & Hsnap).
  destruct (Hsnap _ eq_refl) as (d & Hd & _).
  pose proof (service_delete_frame _ _ _ _ _ H2) as (_ & Hc2 & _).
  pose proof (stored_after_delete _ _ _ _ _ id H2) as Hgone.
  pose proof (service_delete_stored _ _ _ _ _ H2) as (Hu2 & Ho2).
  apply Firebase_deleteUser_spec in H3 as ((Hu3 & Ho3 & _) & Hc3).
  split_and!.
  - eauto.
  - intros id'. rewrite (stored_same k w2 w' Hu3 Ho3).
    rewrite (stored_after_delete _ _ _ _ _ id' H2).
    by rewrite (stored_same k w w1 Hu1 Ho1).
  - intros id'. rewrite (stored_same _ w2 w' Hu3 Ho3).
    destruct k; simpl in *; congruence.
  - congruence.
Qed.

Lemma delete_workflow_success_witness :
  let w' := snd (orchestrator_delete KUser Scenario.alice_id Fixture.calm) in
  is_Some (stored KUser Fixture.calm Scenario.alice_id) ∧
  (∀ id', stored KUser w' id' =
          if decide (Scenario.alice_id = id') then None
          else stored KUser Fixture.calm id') ∧
  (∀ id', stored (other KUser) w' id' = stored (other KUser) Fixture.calm id') ∧
  calls w' = (calls Fixture.calm
              ++ [DeleteUserCall (ObjectId_toString Scenario.alice_id)])%list.
Proof.
  apply (delete_workflow_success KUser Scenario.alice_id Fixture.calm).
  vm_compute. reflexivity.
Defined.

(** X9.  A create workflow (Owner or User) that returns normally found
    the generated id free and has stored under it a document with the
    name, email (and role and owner reference; OWNER for an owner) of
    the input, stamped with the time of the run; it returns that record
    (its [_id] is the generated id), has left every other record alone,
    and has logged one call to the Firebase plugin: [createUser] whose
    uid is the generated id and whose email is the one of the input.
    The local record and the identity so share their id. *)
Theorem create_workflow_success k {A} {backend : AuthBackend A}
    (data : CreateData k) userId (w : World A) created w' :
  orchestrator_create k data userId w = (Ok created, w') →
  stored k w userId = None ∧
  created = to_account userId (new_document (now w) data) ∧
  account_id created = Some userId ∧
  (∀ id, stored k w' id =
         if decide (userId = id) then Some (new_document (now w) data)
         else stored k w id) ∧
  (∀ id, stored (other k) w' id = stored (other k) w id) ∧
  ∃ userData, calls w' = (calls w ++ [CreateUserCall userData])%list ∧
              uid userData = ObjectId_toString userId ∧
              cr_email userData = data_email data.
Proof.
  intros Hrun.
  destruct (orchestrator_create_cases k data userId w)
    as [(e & v & _ & Hv) | [(c & w1 & v & H1 & H2 & Hv) | (r & v & _ & Hv)]];
    rewrite Hv in Hrun; try discriminate Hrun; [| by destruct r].
  invert Hrun.
  pose proof (service_create_frame _ _ _ _ _ _ H1) as (_ & Hc1 & _).
  apply service_create_stored in H1 as (Hother & Hfree & -> & Hins).
  assert (firebase_frame w1 w' ∧
          ∃ userData, calls w' = (calls w1 ++ [CreateUserCall userData])%list ∧
                      uid userData = ObjectId_toString userId ∧
                      cr_email userData = data_email data) as (Hf & Hcall).
  { destruct k; simpl in H2;
      apply Firebase_createUser_spec in H2 as (Hf & Hc); split; try done;
      eexists; (split; [exact Hc |]); by split. }
  destruct Hf as (Hu2 & Ho2 & _).
  split_and!.
  - done.
  - done.
  - by destruct k.
  - intros id. by rewrite (stored_same k w1 w' Hu2 Ho2).
  - intros id. by rewrite (stored_same _ w1 w' Hu2 Ho2).
  - destruct Hcall as (userData & Hc & Huid & Hm).
    exists userData. by rewrite Hc, Hc1.
Qed.

Lemma create_workflow_success_witness :
  let w := Fixture.calm in
  let run := orchestrator_create KOwner Scenario.john Scenario.fresh_id w in
  let created := OwnerDoc.toObject (Scenario.fresh_id, Scenario.john_doc) in
  stored KOwner w Scenario.fresh_id = None ∧
  created = to_account (k:=KOwner) Scenario.fresh_id
              (new_document (k:=KOwner) (now w) Scenario.john) ∧
  account_id (k:=KOwner) created = Some Scenario.fresh_id ∧
  (∀ id, stored KOwner (snd run) id =
         if decide (Scenario.fresh_id = id)
         then Some (new_document (k:=KOwner) (now w) Scenario.john)
         else stored KOwner w id) ∧
  (∀ id, stored (other KOwner) (snd run) id = stored (other KOwner) w id) ∧
  ∃ userData, calls (snd run) = (calls w ++ [CreateUserCall userData])%list ∧
              uid userData = ObjectId_toString Scenario.fresh_id ∧
              cr_email userData = data_email (k:=KOwner) Scenario.john.
Proof.
  apply (create_workflow_success KOwner Scenario.john Scenario.fresh_id
           Fixture.calm).
  vm_compute. reflexivity.
Defined.

(** X10.  Whatever the database and Firebase do, a delete workflow
    (Owner or User) that throws throws one of its two internal errors
    and nothing else, and the error tells what became of the record:
    after "Failed to delete user" the record is stored exactly if it was
    before; after the data-inconsistency error the record was stored
    before and is lost. *)
Theorem delete_workflow_failure k {A} {backend : AuthBackend A}
    id (w : World A) e w' :
  orchestrator_delete k id w = (Throw e, w') →
  (e = delete_failed ∧ (is_Some (stored k w' id) ↔ is_Some (stored k w id))) ∨
  (e = delete_inconsistent ∧ is_Some (stored k w id) ∧ stored k w' id = None).
Proof.
  intros Hrun.
  destruct (orchestrator_delete_cases k id w)
    as [(e0 & v & H1 & Hv) | [(s & w1 & e0 & v & H1 & H2 & Hv)
       | [(s & w1 & w2 & v & _ & _ & _ & Hv) | (r & t & v & Hpath & Hv)]]];
    rewrite Hv in Hrun; try discriminate Hrun.
  - invert Hrun. left. split; [done |].
    apply service_getById_stored in H1 as (Hu & Ho & _).
    by rewrite (stored_same k w w' Hu Ho).
  - invert Hrun. left. split; [done |].
    apply service_getById_stored in H1 as (Hu1 & Ho1 & _).
    apply service_delete_stored in H2 as (Hu2 & Ho2).
    rewrite (stored_same k w1 w'), (stored_same k w w1); try done;
      destruct k; simpl in *; congruence.
  - destruct r as [restored|e1]; invert Hrun.
    + left. split; [done |].
      apply delete_rollback_stores in Hpath as (d & -> & ->).
      split; eauto.
    + right. split; [done |].
      destruct Hpath as (s & w1 & w2 & e2 & w3 & H1 & H2 & H3 & _ & H4).
      apply service_getById_stored in H1 as (Hu1 & Ho1 & Hsnap).
      destruct (Hsnap _ eq_refl) as (d & Hd & _).
      split; [eauto |].
      pose proof (stored_after_delete _ _ _ _ _ id H2) as Hgone.
      rewrite decide_True in Hgone by done.
      apply Firebase_deleteUser_spec in H3 as ((Hu3 & Ho3 & _) & _).
      assert (users w' = users w3 ∧ owners w' = owners w3) as [Hu4 Ho4].
      { destruct k; simpl in H4.
        - by apply UserService_createUser_spec in H4 as (? & _ & ?).
        - by apply OwnerService_createOwner_spec in H4 as (? & _ & ?). }
      by rewrite (stored_same k w3 w' Hu4 Ho4), (stored_same k w2 w3 Hu3 Ho3).
Qed.

Lemma delete_workflow_failure_witness :
  let w := Scenario.world Scenario.rejecting [None; None; Some "connection lost"] in
  let w' := snd (orchestrator_delete KUser Scenario.alice_id w) in
  (delete_inconsistent = delete_failed ∧
   (is_Some (stored KUser w' Scenario.alice_id)
    ↔ is_Some (stored KUser w Scenario.alice_id))) ∨
  (delete_inconsistent = delete_inconsistent ∧
   is_Some (stored KUser w Scenario.alice_id) ∧
   stored KUser w' Scenario.alice_id = None).
Proof.
  apply (delete_workflow_failure KUser Scenario.alice_id).
  vm_compute. reflexivity.
Defined.

Section CreateFailure.
Context {A : Type} {backend : AuthBackend A}.
Implicit Types w : World A.

(** [UserService.deleteUser] rejects with NotFound or with a database
    error, with nothing else. *)
Lemma UserService_deleteUser_throws id w e w' :
  UserService_deleteUser id w = (Throw e, w') →
  e = not_found ∨ ∃ msg, e = MongoError msg.
Proof.
  unfold UserService_deleteUser, Model_findByIdAndDelete, mongo_io.
  prog_unfold. intros H.
  destruct (mongo_faults w) as [|[msg|] rest]; simpl in H;
    try (destruct (users _ !! id)); invert H; eauto.
Qed.
End CreateFailure.

(** X11.  A User create workflow that ends in "Failed to create user"
    has left both collections exactly as they were: either nothing was
    stored, or what was stored has been removed again. *)
Theorem failed_user_create_leaves_no_trace {A} {backend : AuthBackend A}
    data userId (w : World A) w' :
  UserOrchestrator_createEmployeeWithFirebase data userId w
    = (Throw create_failed, w') →
  users w' = users w ∧ owners w' = owners w.
Proof.
  intros Hrun.
  destruct (orchestrator_create_cases KUser data userId w)
    as [(e & v & H1 & Hv) | [(c & w1 & v & _ & _ & Hv) | (r & v & Hpath & Hv)]];
    simpl in Hv; rewrite Hv in Hrun; try discriminate Hrun.
  - invert Hrun. simpl in H1.
    by apply UserService_createUser_spec in H1 as (? & _ & ?).
  - destruct Hpath as (c & w1 & e & w2 & H1 & H2 & H3). simpl in *.
    destruct r as [[]|e'].
    + invert Hrun.
      apply UserService_createUser_spec in H1
        as (Ho1 & _ & id & Hid & Hfree & Hu1 & _).
      simpl in Hid. invert Hid.
      apply Firebase_createUser_spec in H2 as ((Hu2 & Ho2 & _) & _).
      apply UserService_deleteUser_spec in H3 as (Ho3 & _ & Hu3).
      split; [| congruence].
      rewrite Hu3, Hu2, Hu1. by apply delete_insert_id.
    + invert Hrun.
      by apply UserService_deleteUser_throws in H3 as [? | [msg ?]].
Qed.

Lemma failed_user_create_leaves_no_trace_witness :
  let w := Scenario.world Scenario.rejecting [] in
  let w' := snd (UserOrchestrator_createEmployeeWithFirebase
                   Scenario.bob Scenario.fresh_id w) in
  users w' = users w ∧ owners w' = owners w.
Proof.
  apply (failed_user_create_leaves_no_trace Scenario.bob Scenario.fresh_id).
  vm_compute. reflexivity.
Defined.

(** X12.  Deleting an owner never touches the [users] collection: the
    users whose [ownerId] names the owner stay stored, whatever the
    outcome.  A workflow on a User (create or delete) never touches the
    [owners] collection. *)
Theorem workflows_do_not_cascade {A} {backend : AuthBackend A} (w : World A) :
  (∀ id, users (snd (UserOrchestrator_deleteOwner id w)) = users w) ∧
  (∀ id, owners (snd (UserOrchestrator_deleteUser id w)) = owners w) ∧
  (∀ data userId,
     owners (snd (UserOrchestrator_createEmployeeWithFirebase data userId w))
     = owners w).
Proof.
  split_and!.
  - intros id.
    apply (orchestrator_delete_keeps (fun v => users v = users w) KOwner);
      simpl; try done.
    + intros v r v' Hrun Hv.
      apply OwnerService_getOwnerById_spec in Hrun as (? & _). congruence.
    + intros v r v' Hrun Hv.
      apply OwnerService_deleteOwner_spec in Hrun as (? & _). congruence.
    + intros v r v' Hrun Hv.
      apply Firebase_deleteUser_spec in Hrun as ((? & _) & _). congruence.
    + intros s v r v' Hrun Hv.
      apply OwnerService_createOwner_spec in Hrun as (? & _). congruence.
  - intros id.
    apply (orchestrator_delete_keeps (fun v => owners v = owners w) KUser);
      simpl; try done.
    + intros v r v' Hrun Hv.
      apply UserService_getUserById_spec in Hrun as (_ & ? & _). congruence.
    + intros v r v' Hrun Hv.
      apply UserService_deleteUser_spec in Hrun as (? & _). congruence.
    + intros v r v' Hrun Hv.
      apply Firebase_deleteUser_spec in Hrun as ((_ & ? & _) & _). congruence.
    + intros s v r v' Hrun Hv.
      apply UserService_createUser_spec in Hrun as (? & _). congruence.
  - intros data userId.
    apply (orchestrator_create_keeps (fun v => owners v = owners w) KUser);
      simpl; try done.
    + intros v r v' Hrun Hv.
      apply UserService_createUser_spec in Hrun as (? & _). congruence.
    + intros v r v' Hrun Hv.
      apply Firebase_createUser_spec in Hrun as ((_ & ? & _) & _). congruence.
    + intros v r v' Hrun Hv.
      apply UserService_deleteUser_spec in Hrun as (? & _). congruence.
Qed.

Section OwnerFrame.
Context {A : Type} {backend : AuthBackend A}.
Implicit Types w : World A.

Lemma mongo_io_ignores_owners : ignores_owners (A:=A) mongo_io.
Proof.
  intros m [u o a n f c]. unfold mongo_io. simpl.
  by destruct f as [|[msg|] rest].
Qed.

Lemma UserService_createUser_ignores_owners user :
  ignores_owners (A:=A) (UserService_createUser user).
Proof.
  intros m w.
  unfold UserService_createUser, Model_findOne_email, User_create,
    required_id, required_string, Model_insert.
  prog_unfold. rewrite !mongo_io_ignores_owners.
  destruct (mongo_io w) as [[[]|e] w1]; simpl; [| done].
  destruct (list_find _ _); simpl; [done |].
  destruct (IUser._id user) as [id|]; simpl; [| done].
  destruct (bool_decide (IUser.name user = "")); simpl; [done |].
  destruct (bool_decide (IUser.email user = "")); simpl; [done |].
  rewrite !mongo_io_ignores_owners.
  destruct (mongo_io w1) as [[[]|e] w2]; simpl; [| done].
  by destruct (_ || _).
Qed.

Lemma UserService_deleteUser_ignores_owners id :
  ignores_owners (A:=A) (UserService_deleteUser id).
Proof.
  intros m w. unfold UserService_deleteUser, Model_findByIdAndDelete.
  prog_unfold. rewrite !mongo_io_ignores_owners.
  destruct (mongo_io w) as [[[]|e] w1]; simpl; [| done].
  by destruct (users w1 !! id).
Qed.

Lemma Firebase_createUser_ignores_owners userData :
  ignores_owners (A:=A) (Firebase_createUser userData).
Proof.
  intros m w. unfold Firebase_createUser, log_call, lift_auth.
  prog_unfold. simpl.
  by destruct (auth_createUser userData (auth w)) as [[[]|e] a'].
Qed.
End OwnerFrame.

(** X13.  Creating a user never reads the [owners] collection: run in
    a world with any other owners, the workflow has the same outcome,
    stores the same users and makes the same Firebase calls.  The
    [ownerId] of the input is therefore never checked against the stored
    owners. *)
Theorem user_create_never_reads_owners {A} {backend : AuthBackend A}
    data userId :
  ignores_owners (A:=A)
    (UserOrchestrator_createEmployeeWithFirebase data userId).
Proof.
  intros m w.
  change (UserOrchestrator_createEmployeeWithFirebase data userId)
    with (orchestrator_create KUser data userId).
  destruct (service_create KUser data userId w) as [[created|e] w1] eqn:H1.
  2: { rewrite (create_local_failed _ _ _ _ _ _ H1). cbn [fst snd].
       apply (create_local_failed KUser data userId (set_owners m w) e).
       simpl in *. by rewrite UserService_createUser_ignores_owners, H1. }
  destruct (identity_create KUser data userId w1) as [[[]|e] w2] eqn:H2.
  { rewrite (create_succeeded _ _ _ _ _ _ _ H1 H2). cbn [fst snd].
    apply (create_succeeded KUser data userId (set_owners m w) created
             (set_owners m w1)); simpl in *.
    - by rewrite UserService_createUser_ignores_owners, H1.
    - by rewrite Firebase_createUser_ignores_owners, H2. }
  destruct (create_rollback KUser userId w2) as [r w3] eqn:H3.
  rewrite (create_rolled_back _ _ _ _ _ _ _ _ _ _ H1 H2 H3). cbn [fst snd].
  apply (create_rolled_back KUser data userId (set_owners m w) created
           (set_owners m w1) e (set_owners m w2)); simpl in *.
  - by rewrite UserService_createUser_ignores_owners, H1.
  - by rewrite Firebase_createUser_ignores_owners, H2.
  - by rewrite UserService_deleteUser_ignores_owners, H3.
Qed.

(** * The Firebase plugin and its test double *)

(** X14.  For any Firebase backend: [setCustomClaims] logs its call and
    hides every rejection of the backend behind the one internal error
    "Error setting custom claims" (500), whereas [createUser] and
    [deleteUser] hand the backend's outcome, rejection included, to
    their caller unchanged. *)
Theorem firebase_plugin_errors {A} {backend : AuthBackend A}
    (w : World A) :
  (∀ uid role,
     let run := Firebase_setCustomClaims uid role w in
     calls (snd run) = (calls w ++ [SetCustomClaimsCall uid role])%list ∧
     fst run =
       match fst (auth_setCustomUserClaims uid role (auth w)) with
       | Ok _ => Ok tt
       | Throw _ => Throw (ApiError httpStatus.INTERNAL_SERVER_ERROR
                                    "Error setting custom claims")
       end) ∧
  (∀ userData,
     fst (Firebase_createUser userData w)
     = fst (auth_createUser userData (auth w))) ∧
  (∀ uid,
     fst (Firebase_deleteUser uid w) = fst (auth_deleteUser uid (auth w))).
Proof.
  split_and!.
  - intros uid role. unfold Firebase_setCustomClaims, log_call, lift_auth.
    prog_unfold. simpl.
    by destruct (auth_setCustomUserClaims uid role (auth w)) as [[[]|e] a'].
  - intros userData. unfold Firebase_createUser, log_call, lift_auth.
    prog_unfold. simpl.
    by destruct (auth_createUser userData (auth w)) as [[[]|e] a'].
  - intros uid. unfold Firebase_deleteUser, log_call, lift_auth.
    prog_unfold. simpl.
    by destruct (auth_deleteUser uid (auth w)) as [[[]|e] a'].
Qed.



(** * The middlewares *)

Section Splitting.
Implicit Types (sep c : ascii) (s : string).

Lemma split_nonempty sep s : ∃ h t, Auth.split sep s = h :: t.
Proof.
  induction s as [|c s (h & t & IH)]; simpl; [by eauto |].
  destruct (Ascii.eqb c sep); [by eauto |]. rewrite IH. eauto.
Qed.

(** No piece of a split holds the separator. *)
Lemma split_pieces sep s x :
  x ∈ Auth.split sep s → Auth.occurs sep x = false.
Proof.
  revert x. induction s as [|c s IH]; simpl; intros x Hin.
  - apply list_elem_of_singleton in Hin as ->. done.
  - destruct (Ascii.eqb c sep) eqn:Hc.
    + apply elem_of_cons in Hin as [-> | Hin]; [done | by apply IH].
    + destruct (split_nonempty sep s) as (h & t & Hs). rewrite Hs in *.
      apply elem_of_cons in Hin as [-> | Hin].
      * simpl. rewrite Hc. apply IH. by left.
      * apply IH. by right.
Qed.

(** A string that holds the separator splits into two pieces at least. *)
Lemma split_second sep s :
  Auth.occurs sep s = true → ∃ a b t, Auth.split sep s = a :: b :: t.
Proof.
  induction s as [|c s IH]; simpl; [done |].
  destruct (Ascii.eqb c sep); simpl.
  - intros _. destruct (split_nonempty sep s) as (h & t & ->). eauto.
  - intros Hocc. destruct (IH Hocc) as (a & b & t & ->). eauto.
Qed.

Lemma split_whole sep s :
  Auth.occurs sep s = false → Auth.split sep s = [s].
Proof.
  induction s as [|c s IH]; simpl; [done |].
  destruct (Ascii.eqb c sep); simpl; [done |]. by intros ->%IH.
Qed.

Lemma split_at_separator sep s rest :
  Auth.occurs sep s = false →
  Auth.split sep (s ++ String sep rest) = s :: Auth.split sep rest.
Proof.
  induction s as [|c s IH]; simpl.
  - by rewrite Ascii.eqb_refl.
  - destruct (Ascii.eqb c sep); simpl; [done |]. by intros ->%IH.
Qed.

Lemma append_empty s : s ++ "" = s.
Proof.
  induction s as [|c s IH]; [done |].
  change (String c (s ++ "") = String c s). by rewrite IH.
Qed.

Lemma prefix_occurs c p s :
  String.prefix p s = true → Auth.occurs c p = true → Auth.occurs c s = true.
Proof.
  revert s. induction p as [|a p IH]; simpl; [done |].
  intros [|b s]; simpl; [done |]. destruct (ascii_dec a b) as [<-|]; [| done].
  intros Hp. destruct (Ascii.eqb a c); [done |]. simpl. by apply IH.
Qed.

Lemma includes_occurs c needle s :
  Auth.includes needle s = true → Auth.occurs c needle = true →
  Auth.occurs c s = true.
Proof.
  induction s as [|b s IH]; simpl; intros Hinc Hocc.
  - rewrite orb_false_r in Hinc. by apply (prefix_occurs c needle "").
  - apply orb_true_iff in Hinc as [Hp | Hinc].
    + by apply (prefix_occurs c needle (String b s)).
    + rewrite (IH Hinc Hocc). by rewrite orb_true_r.
Qed.
End Splitting.

Section BasicAuthorizationFacts.
Variable base64_to_ascii : string → string.
Variables apiUsername apiPassword : string.

Abbreviation check :=
  (Auth.apiBasicAuthorization base64_to_ascii apiUsername apiPassword).

(** What the middleware does with a header that names the scheme. *)
Lemma apiBasicAuthorization_run h :
  Auth.includes "Basic " h = true →
  ∃ token, Auth.split " " h !! 1%nat = Some token ∧
    check (Some h) =
      if bool_decide
           (Auth.split ":" (base64_to_ascii token) !! 0%nat ≠ Some apiUsername) ||
         bool_decide
           (Auth.split ":" (base64_to_ascii token) !! 1%nat ≠ Some apiPassword)
      then Throw Auth.invalid_credentials else Ok tt.
Proof.
  intros Hinc.
  destruct (split_second " " h) as (a & token & t & Hsplit).
  { by apply (includes_occurs " " "Basic "). }
  exists token. split; [by rewrite Hsplit |].
  unfold Auth.apiBasicAuthorization. rewrite Hinc, Hsplit. simpl.
  destruct h; [discriminate Hinc |]. by rewrite bool_decide_eq_false_2.
Qed.
Lemma apiBasicAuthorization_accepts h token :
  Auth.includes "Basic " h = true →
  Auth.split " " h !! 1%nat = Some token →
  (check (Some h) = Ok tt
   ↔ ∃ rest, Auth.split ":" (base64_to_ascii token)
             = apiUsername :: apiPassword :: rest) ∧
  (check (Some h) = Ok tt ∨ check (Some h) = Throw Auth.invalid_credentials).
Proof.
  intros Hinc Htoken.
  destruct (apiBasicAuthorization_run h Hinc) as (token' & Htoken' & ->).
  rewrite Htoken in Htoken'. invert Htoken'.
  destruct (Auth.split ":" (base64_to_ascii token')) as [|u [|p rest]];
    simpl; repeat case_bool_decide; simpl; simplify_eq;
    (split; [| by auto]);
    (split; [try discriminate; intros _; by eexists |]);
    intros [rest0 Heq]; simplify_eq; try done;
    exfalso; eauto.
Qed.

(** The middleware lets a request through exactly when this holds. *)
Lemma apiBasicAuthorization_passes authorization :
  check authorization = Ok tt
  ↔ ∃ h token rest,
      authorization = Some h ∧ Auth.includes "Basic " h = true ∧
      Auth.split " " h !! 1%nat = Some token ∧
      Auth.split ":" (base64_to_ascii token)
        = apiUsername :: apiPassword :: rest.
Proof.
  destruct authorization as [h|].
  2: { split; [done | by intros (h & ? & ? & [=] & _)]. }
  destruct (Auth.includes "Basic " h) eqn:Hinc.
  2: { assert (check (Some h) = Throw Auth.missing_header) as ->.
       { unfold Auth.apiBasicAuthorization. rewrite Hinc. simpl.
         by rewrite orb_true_r. }
       split; [done |]. intros (h' & ? & ? & [= <-] & Hinc' & _). congruence. }
  destruct (apiBasicAuthorization_run h Hinc) as (token & Htoken & _).
  destruct (apiBasicAuthorization_accepts h token Hinc Htoken) as (Hiff & _).
  rewrite Hiff. split.
  - intros (rest & Hparts). by exists h, token, rest.
  - intros (h' & token' & rest & [= <-] & _ & Htoken' & Hparts).
    rewrite Htoken in Htoken'. invert Htoken'. eauto.
Qed.
End BasicAuthorizationFacts.

(** X16.  [apiBasicAuthorization] has three outcomes.  It throws 401
    "Missing Authorization Header" exactly when the header is absent or
    does not contain "Basic " (anywhere).  It calls [next()] exactly when
    the header contains "Basic " and its second space-separated piece
    decodes to a string whose first two colon-separated fields are the
    configured username and password.  Otherwise it throws 401 "Invalid
    Authentication Credentials". *)
Theorem apiBasicAuthorization_outcomes (base64_to_ascii : string → string)
    (apiUsername apiPassword : string) (authorization : option string) :
  let r := Auth.apiBasicAuthorization base64_to_ascii apiUsername apiPassword
             authorization in
  (r = Throw Auth.missing_header
   ↔ ∀ h, authorization = Some h → Auth.includes "Basic " h = false) ∧
  (r = Ok tt
   ↔ ∃ h token rest,
       authorization = Some h ∧ Auth.includes "Basic " h = true ∧
       Auth.split " " h !! 1%nat = Some token ∧
       Auth.split ":" (base64_to_ascii token)
         = apiUsername :: apiPassword :: rest) ∧
  (r = Ok tt ∨ r = Throw Auth.missing_header ∨
   r = Throw Auth.invalid_credentials).
Proof.
  intros r. subst r. destruct authorization as [h|].
  2: { simpl. split_and!; [| | by auto].
       - split; [by intros _ h [=] | done].
       - split; [done | by intros (h & ? & ? & [=] & _)]. }
  destruct (Auth.includes "Basic " h) eqn:Hinc.
  2: { assert (Auth.apiBasicAuthorization base64_to_ascii apiUsername
                 apiPassword (Some h) = Throw Auth.missing_header) as ->.
       { unfold Auth.apiBasicAuthorization. rewrite Hinc. simpl.
         by rewrite orb_true_r. }
       split_and!; [| | by auto].
       - split; [by intros _ h' [= <-] | done].
       - split; [done |]. intros (h' & ? & ? & [= <-] & Hinc' & _). congruence. }
  destruct (apiBasicAuthorization_run base64_to_ascii apiUsername apiPassword
              h Hinc) as (token & Htoken & _).
  destruct (apiBasicAuthorization_accepts base64_to_ascii apiUsername
              apiPassword h token Hinc Htoken) as (Hiff & Hor).
  split_and!.
  - split.
    + intros Hr. rewrite Hr in Hor. by destruct Hor.
    + intros Hall. specialize (Hall h eq_refl). congruence.
  - apply apiBasicAuthorization_passes.
  - destruct Hor; auto.
Qed.

(** X17.  When the configured username or password holds a colon, no
    request at all passes [apiBasicAuthorization]: the credentials are
    split at every colon and only the first two fields are compared. *)
Theorem apiBasicAuthorization_colon_locks_out
    (base64_to_ascii : string → string) (apiUsername apiPassword : string)
    (authorization : option string) :
  Auth.occurs ":" apiUsername = true ∨ Auth.occurs ":" apiPassword = true →
  Auth.apiBasicAuthorization base64_to_ascii apiUsername apiPassword
    authorization ≠ Ok tt.
Proof.
  intros Hcolon Hok.
  apply apiBasicAuthorization_passes in Hok
    as (h & token & rest & _ & _ & _ & Hparts).
  assert (Auth.occurs ":" apiUsername = false ∧
          Auth.occurs ":" apiPassword = false) as [Hu Hp].
  { split; apply (split_pieces ":" (base64_to_ascii token));
      rewrite Hparts, !elem_of_cons; auto. }
  destruct Hcolon; congruence.
Qed.

Lemma apiBasicAuthorization_colon_locks_out_witness :
  Auth.apiBasicAuthorization (fun s => s) "user" "pa:ss"
    (Some "Basic user:pa:ss") ≠ Ok tt.
Proof.
  apply (apiBasicAuthorization_colon_locks_out (fun s => s) "user" "pa:ss").
  right. reflexivity.
Defined.

(** X18.  [apiBasicAuthorization] ignores whatever follows a second
    colon in the decoded credentials: a header whose second piece
    decodes to "username:password" or to "username:password:anything"
    passes (username and password being the configured ones, without
    colon). *)
Theorem apiBasicAuthorization_ignores_trailing_fields
    (base64_to_ascii : string → string) (apiUsername apiPassword : string)
    (h token : string) (trailing : option string) :
  Auth.occurs ":" apiUsername = false →
  Auth.occurs ":" apiPassword = false →
  Auth.includes "Basic " h = true →
  Auth.split " " h !! 1%nat = Some token →
  base64_to_ascii token =
    apiUsername ++ ":" ++ apiPassword ++
    match trailing with Some junk => ":" ++ junk | None => "" end →
  Auth.apiBasicAuthorization base64_to_ascii apiUsername apiPassword (Some h)
    = Ok tt.
Proof.
  intros Hu Hp Hinc Htoken Hdecoded.
  apply apiBasicAuthorization_passes.
  exists h, token.
  exists (match trailing with Some junk => Auth.split ":" junk | None => [] end).
  split_and!; try done.
  rewrite Hdecoded.
  change (apiUsername ++ ":" ++ ?s) with (apiUsername ++ String ":" s).
  rewrite split_at_separator by done. f_equal.
  destruct trailing as [junk|].
  - change (apiPassword ++ ":" ++ junk) with (apiPassword ++ String ":" junk).
    by rewrite split_at_separator.
  - rewrite append_empty. by apply split_whole.
Qed.

Lemma apiBasicAuthorization_ignores_trailing_fields_witness :
  Auth.apiBasicAuthorization (fun s => s) "user" "pass"
    (Some "Basic user:pass:anything") = Ok tt.
Proof.
  apply (apiBasicAuthorization_ignores_trailing_fields (fun s => s)
           "user" "pass" "Basic user:pass:anything" "user:pass:anything"
           (Some "anything")); reflexivity.
Defined.

(** X19.  [firebaseAuth] throws nothing but a 401 [ApiError]: every
    failure, its own "no token" error included, passes through its
    [catch] block.  The message is "The access token expired" exactly
    when token verification rejected with the code
    'auth/id-token-expired', the generic one otherwise, and the request
    is left as it was.  It returns normally exactly when the header
    holds a token whose verification gave a user id, and [req.userId]
    is then that id. *)
Theorem firebaseAuth_outcomes (verifyIdToken : string → Result (option string))
    (req : Auth.Request) :
  let run := Auth.firebaseAuth verifyIdToken req in
  (∀ e, fst run = Throw e →
        snd run = req ∧
        (e = Auth.token_expired ∨ e = Auth.unauthorized_token) ∧
        (e = Auth.token_expired
         ↔ ∃ token, Auth.userauthorization req = Some token ∧
                    verifyIdToken token
                    = Throw (FirebaseAuthError "auth/id-token-expired"))) ∧
  (fst run = Ok tt
   ↔ ∃ token user_id, Auth.userauthorization req = Some token ∧
                      verifyIdToken token = Ok (Some user_id) ∧
                      snd run = Auth.mkRequest (Some token) (Some user_id)).
Proof.
  intros run. subst run. unfold Auth.firebaseAuth. prog_unfold.
  destruct req as [[token|] uid0]; simpl.
  2: { split.
       - intros e [= <-]. split_and!; [done | by right |].
         split; [discriminate | by intros (? & [=] & _)].
       - split; [discriminate | by intros (? & ? & [=] & _)]. }
  destruct (verifyIdToken token) as [[user_id|]|e0] eqn:Hverify; simpl.
  - split; [discriminate |]. split; [| done]. intros _. by exists token, user_id.
  - split.
    + intros e [= <-]. split_and!; [done | by right |].
      split; [discriminate |]. intros (t & [= <-] & Ht). congruence.
    + split; [discriminate |]. intros (t & u & [= <-] & Ht & _). congruence.
  - split.
    + destruct (Auth.is_expired e0) eqn:Hexp; intros e [= <-];
        (split_and!; [done | by auto |]).
      * split; [| done]. intros _. exists token. split; [done |].
        destruct e0 as [| |code]; try discriminate Hexp. simpl in Hexp.
        by apply bool_decide_eq_true in Hexp as ->.
      * split; [discriminate |]. intros (t & [= <-] & Ht).
        rewrite Hverify in Ht. invert Ht. discriminate Hexp.
    + destruct (Auth.is_expired e0); (split; [discriminate |]);
        intros (t & u & [= <-] & Ht & _); congruence.
Qed.

Section DbReady.
(** After any events, with one connection awaited: the callback has run
    once more than before if the first event arrived now, and not again
    otherwise. *)
Lemma on_connected_fold (events : list string) (ready : list string) (n : nat) :
  snd (fold_left (DbModule.on_connected DbModule.connections) events (ready, n))
  = match ready, events with
    | [], _ :: _ => S n
    | _, _ => n
    end.
Proof.
  revert ready n. induction events as [|ev events IH]; intros ready n.
  - by destruct ready.
  - cbn [fold_left].
    assert (DbModule.on_connected DbModule.connections (ready, n) ev
            = ((ready ++ [ev])%list,
               if Nat.eqb (length (ready ++ [ev])) 1 then S n else n))
      as -> by reflexivity.
    rewrite IH. destruct ready as [|r ready]; [done |].
    cbn [app length]. rewrite length_app. cbn [length].
    by replace (length ready + 1)%nat with (S (length ready)) by lia.
Qed.
End DbReady.

(** X20.  [onDBConnectionsReady] runs its callback exactly once, at the
    first 'connected' event, and never again however often the
    connection reconnects; without any event it never runs it. *)
Theorem onDBConnectionsReady_calls_back_once (events : list string) :
  snd (DbModule.onDBConnectionsReady events)
  = match events with [] => 0%nat | _ :: _ => 1%nat end.
Proof. unfold DbModule.onDBConnectionsReady. by rewrite on_connected_fold. Qed.

(** X21.  [GET /user/:id] and [GET /owner/:id] handlers, for an id of
    24 hexadecimal digits and with no database fault: for a stored id
    the handler answers 200 with the stored record; for an id that is
    not stored it lets the service's 404 "User not found" through
    unchanged.  Either way both collections are as before and no call
    goes to the Firebase plugin. *)
Theorem getById_handlers k {A} {backend : AuthBackend A}
    (params_id : string) (w : World A) :
  isMongoId params_id = true →
  next_fault w = None →
  let id := ObjectId_fromString params_id in
  let run := controller_getById k params_id w in
  fst run = match stored k w id with
            | Some d => Ok (mkResponse httpStatus.OK
                              (account_body (to_account id d)))
            | None => Throw not_found
            end ∧
  users (snd run) = users w ∧ owners (snd run) = owners w ∧
  calls (snd run) = calls w.
Proof.
  intros _ Hn id run. subst id run.
  destruct (getById_run k (ObjectId_fromString params_id) w Hn)
    as (w1 & Hrun & Hu & Ho & _ & Hc & _).
  destruct k; simpl in *;
    unfold UserController_getById, OwnerController_getById; prog_unfold;
    rewrite Hrun; by destruct (_ !! _).
Qed.

Lemma getById_handlers_witness :
  let id := ObjectId_fromString Scenario.alice_id in
  let run := controller_getById KUser Scenario.alice_id Fixture.calm in
  fst run = match stored KUser Fixture.calm id with
            | Some d => Ok (mkResponse httpStatus.OK
                              (account_body (k:=KUser) (to_account id d)))
            | None => Throw not_found
            end ∧
  users (snd run) = users Fixture.calm ∧
  owners (snd run) = owners Fixture.calm ∧
  calls (snd run) = calls Fixture.calm.
Proof.
  apply (getById_handlers KUser Scenario.alice_id Fixture.calm);
    vm_compute; reflexivity.
Defined.
